(** * Sentiscope: tone fusion and clarity scoring

    A shallow embedding of [services/tone_service.py] and
    [services/clarity_service.py], and the properties of the tone-decision
    pipeline and of the clarity score that the specification states.

    Conventions of the embedding.
    - A Python [str] is a [string]; its characters are the code points
      U+0000..U+00FF, so [lower], [isspace] and the regex class [\w] are
      Python's own on that range.
    - A Python [float] is an exact rational ([Q]); [round(x, 2)] rounds to
      the nearest hundredth, ties to even.
    - A Python [dict] with fixed keys is a record; a key that one return
      site leaves out is an optional field.
    - A call that may raise returns an [option]; [try/except] is a match. *)

From Stdlib Require Import Bool List ZArith QArith Qround Qminmax Lia.
From Stdlib Require Import Ascii String.
Import ListNotations.

Open Scope string_scope.
Open Scope Z_scope.

(* ================================================================= *)
(** ** Python strings *)

Module PyStr.

Definition code (c : ascii) : N := N_of_ascii c.

Definition in_range (lo hi : N) (c : ascii) : bool :=
  (N.leb lo (code c) && N.leb (code c) hi)%bool.

Definition code_in (l : list N) (c : ascii) : bool :=
  existsb (N.eqb (code c)) l.

(** [str.isspace] of one character, which is also the regex class [\s]. *)
Definition isspace (c : ascii) : bool :=
  (in_range 9 13 c || in_range 28 32 c || code_in [133; 160]%N c)%bool.

(** [str.isalnum] of one character. *)
Definition isalnum (c : ascii) : bool :=
  (in_range 48 57 c || in_range 65 90 c || in_range 97 122 c
   || code_in [170; 178; 179; 181; 185; 186; 188; 189; 190]%N c
   || in_range 192 214 c || in_range 216 246 c || in_range 248 255 c)%bool.

(** The regex class [\w]: alphanumeric or underscore. *)
Definition isword (c : ascii) : bool :=
  (isalnum c || N.eqb (code c) 95)%bool.

Definition isupper (c : ascii) : bool :=
  (in_range 65 90 c || in_range 192 214 c || in_range 216 222 c)%bool.

Definition lower_char (c : ascii) : ascii :=
  if isupper c then ascii_of_N (code c + 32) else c.

(** [s.lower()] *)
Fixpoint lower (s : string) : string :=
  match s with
  | EmptyString => EmptyString
  | String c s' => String (lower_char c) (lower s')
  end.

(** [s.startswith(p)] *)
Fixpoint startswith (p s : string) : bool :=
  match p, s with
  | EmptyString, _ => true
  | String _ _, EmptyString => false
  | String a p', String b s' => (Ascii.eqb a b && startswith p' s')%bool
  end.

(** [p in s] *)
Fixpoint contains (p s : string) : bool :=
  (startswith p s
   || match s with
      | EmptyString => false
      | String _ s' => contains p s'
      end)%bool.

Fixpoint lstrip (s : string) : string :=
  match s with
  | EmptyString => EmptyString
  | String c s' => if isspace c then lstrip s' else s
  end.

(** Drops the trailing whitespace: a character is kept when it is not
    whitespace or something is kept after it. *)
Fixpoint rstrip (s : string) : string :=
  match s with
  | EmptyString => EmptyString
  | String c s' =>
      match rstrip s' with
      | EmptyString => if isspace c then EmptyString
                       else String c EmptyString
      | r => String c r
      end
  end.

(** [s.strip()] *)
Definition strip (s : string) : string := rstrip (lstrip s).

(** Python's truth value of a string. *)
Definition truthy (s : string) : bool :=
  match s with
  | EmptyString => false
  | String _ _ => true
  end.

(** The guard [not text or not text.strip()] *)
Definition blank (text : string) : bool :=
  (negb (truthy text) || negb (truthy (strip text)))%bool.

(** Every character is whitespace: the string is empty or
    whitespace-only. *)
Fixpoint all_space (s : string) : bool :=
  match s with
  | EmptyString => true
  | String c s' => (isspace c && all_space s')%bool
  end.

(** Splitting on the characters chosen by [sep], every separator ending a
    field ([re.split] on a one-character class): [cur] is the field read
    so far, in reverse. *)
Fixpoint rev_string (acc s : string) : string :=
  match s with
  | EmptyString => acc
  | String c s' => rev_string (String c acc) s'
  end.

Fixpoint split_on_aux (sep : ascii -> bool) (cur s : string) : list string :=
  match s with
  | EmptyString => [rev_string EmptyString cur]
  | String c s' =>
      if sep c then rev_string EmptyString cur :: split_on_aux sep EmptyString s'
      else split_on_aux sep (String c cur) s'
  end.

Definition split_on (sep : ascii -> bool) (s : string) : list string :=
  split_on_aux sep EmptyString s.

(** [s.split()]: the maximal runs of characters that are not whitespace. *)
Definition split (s : string) : list string :=
  filter truthy (split_on isspace s).

End PyStr.

(* ================================================================= *)
(** ** The regular expressions of the pattern tables

    The tables use literals, [\s+], [\w+], [\b], alternation and
    concatenation only.  [re.search] answers whether some match exists, so
    the matcher computes the set of positions at which a match can end. *)

Module Re.
Import PyStr.

Inductive regex : Type :=
| Lit (s : string)          (* literal characters *)
| Spaces                    (* \s+ *)
| Words                     (* \w+ *)
| Boundary                  (* \b *)
| Alt (r1 r2 : regex)       (* r1|r2 *)
| Cat (r1 r2 : regex).      (* r1 r2 *)

(** A position in the subject: the character before it, if any, and what
    is left to read. *)
Definition pos : Type := (option ascii * string)%type.

Definition word_before (p : pos) : bool :=
  match fst p with Some c => isword c | None => false end.

Definition word_after (p : pos) : bool :=
  match snd p with String c _ => isword c | EmptyString => false end.

(** [\b]: exactly one side of the position is a word character. *)
Definition at_boundary (p : pos) : bool := xorb (word_before p) (word_after p).

Fixpoint lit_end (l : string) (p : pos) : list pos :=
  match l with
  | EmptyString => [p]
  | String a l' =>
      match snd p with
      | String b s' => if Ascii.eqb a b then lit_end l' (Some b, s') else []
      | EmptyString => []
      end
  end.

(** The positions after one or more characters of class [cls]. *)
Fixpoint plus_end (cls : ascii -> bool) (s : string) : list pos :=
  match s with
  | String c s' => if cls c then (Some c, s') :: plus_end cls s' else []
  | EmptyString => []
  end.

Fixpoint ends (r : regex) (p : pos) : list pos :=
  match r with
  | Lit l => lit_end l p
  | Spaces => plus_end isspace (snd p)
  | Words => plus_end isword (snd p)
  | Boundary => if at_boundary p then [p] else []
  | Alt r1 r2 => ends r1 p ++ ends r2 p
  | Cat r1 r2 => flat_map (ends r2) (ends r1 p)
  end.

Definition matches_at (r : regex) (p : pos) : bool :=
  match ends r p with [] => false | _ :: _ => true end.

Fixpoint search_from (r : regex) (prev : option ascii) (s : string) : bool :=
  (matches_at r (prev, s)
   || match s with
      | EmptyString => false
      | String c s' => search_from r (Some c) s'
      end)%bool.

(** The truth value of [re.search(r, s)]. *)
Definition search (r : regex) (s : string) : bool := search_from r None s.

End Re.

Declare Scope re_scope.
Delimit Scope re_scope with re.
Bind Scope re_scope with Re.regex.
Notation "'\b'" := Re.Boundary : re_scope.
Notation "'\s+'" := Re.Spaces : re_scope.
Notation "'\w+'" := Re.Words : re_scope.
Notation "$ s" := (Re.Lit s) (at level 5, format "$ s") : re_scope.
Infix ">>" := Re.Cat (at level 40, left associativity) : re_scope.
Infix "||" := Re.Alt : re_scope.

(* ================================================================= *)
(** ** Python numbers *)

Module PyNum.

Definition Qltb (a b : Q) : bool := negb (Qle_bool b a).

(** [max(a, b)]: the first argument unless the second is greater. *)
Definition max2 (a b : Q) : Q := if Qltb a b then b else a.

(** [min(a, b)]: the first argument unless the second is smaller. *)
Definition min2 (a b : Q) : Q := if Qltb b a then b else a.

(** [max(l)] of a sequence; an empty one raises. *)
Definition max_list (l : list Q) : option Q :=
  match l with
  | [] => None
  | x :: l' => Some (fold_left max2 l' x)
  end.

Definition round_half_even (q : Q) : Z :=
  let f := Qfloor q in
  match (q - inject_Z f ?= 1 # 2)%Q with
  | Lt => f
  | Gt => f + 1
  | Eq => if Z.even f then f else f + 1
  end.

(** [round(q, 2)] *)
Definition round2 (q : Q) : Q := round_half_even (q * 100) # 100.

(** The range of a probability and of a confidence. *)
Definition unit_interval (q : Q) : Prop := (0 <= q <= 1)%Q.

(** [int(q)]: truncation towards zero. *)
Definition int (q : Q) : Z := Z.quot (Qnum q) (Z.pos (Qden q)).

End PyNum.

(* ================================================================= *)
(** ** services/tone_service.py *)

Module Tone.
Import PyStr PyNum.
Local Open Scope re_scope.

Definition ACCUSATORY_PATTERNS : list Re.regex :=
  [ \b >> $"why" >> \s+
      >> ($"haven't" || $"have not" || $"didn't" || $"did not")
      >> \s+ >> $"you" >> \b;
    \b >> $"this" >> \s+ >> $"is" >> \s+ >> $"unacceptable" >> \b;
    \b >> $"you" >> \s+ >> $"should" >> \s+ >> $"have" >> \b;
    \b >> $"why" >> \s+ >> $"wasn't" >> \b;
    \b >> $"why" >> \s+ >> $"isn't" >> \b ].

Definition COMMANDING_PATTERNS : list Re.regex :=
  [ \b >> $"send" >> \s+ >> ($"this" || $"it") >> \s+ >> $"now" >> \b;
    \b >> $"do" >> \s+ >> $"this" >> \s+ >> $"immediately" >> \b ].

Local Close Scope re_scope.

Definition POLITE_MARKERS : list string :=
  [ "please"; "could you"; "would you"; "kindly";
    "thank you"; "thanks"; "appreciate"; "grateful" ].

Definition APOLOGY_MARKERS : list string :=
  [ "sorry"; "apologize"; "apologies"; "regret" ].

Definition URGENT_WORDS : list string :=
  [ "urgent"; "asap"; "immediately"; "deadline" ].

Definition NEGATIVE_KEYWORDS : list string :=
  [ "unacceptable"; "disappointed"; "failure";
    "problem"; "issue"; "delay"; "no response" ].

(** [any(re.search(p, t) for p in ps)] *)
Definition any_search (ps : list Re.regex) (t : string) : bool :=
  existsb (fun p => Re.search p t) ps.

(** [any(p in t for p in ps)] *)
Definition any_in (ps : list string) (t : string) : bool :=
  existsb (fun p => contains p t) ps.

(** The dict that [rule_based_tone] returns; its four keys are always
    present. *)
Record RuleVerdict : Type := {
  rv_label : string;
  rv_confidence : Q;
  rv_style_tags : list string;
  rv_explanation : string
}.

Definition rule_based_tone (text : string) : RuleVerdict :=
  let t := lower text in
  let has_accusatory := any_search ACCUSATORY_PATTERNS t in
  let has_commanding := any_search COMMANDING_PATTERNS t in
  let has_polite := any_in POLITE_MARKERS t in
  let has_apology := any_in APOLOGY_MARKERS t in
  let has_urgent := any_in URGENT_WORDS t in
  let has_negative := any_in NEGATIVE_KEYWORDS t in
  let '(label, reason) :=
    if has_accusatory then
      ("harsh", "contains accusatory language")
    else if (has_negative && negb has_polite)%bool then
      ("harsh", "negative wording without softening")
    else if (has_commanding && negb has_polite)%bool then
      ("firm", "commanding language")
    else if (has_polite || has_apology)%bool then
      ("polite", "polite or apologetic phrasing")
    else
      ("neutral", "factual language") in
  let style_tags :=
    ((if has_accusatory then ["accusatory"] else [])
    ++ (if has_commanding then ["commanding"] else [])
    ++ (if has_polite then ["polite"] else [])
    ++ (if has_apology then ["apologetic"] else [])
    ++ (if has_urgent then ["urgent"] else []))%list in
  {| rv_label := label;
     rv_confidence := 7 # 10;
     rv_style_tags := style_tags;
     rv_explanation :=
       "Tone classified as " ++ label ++ " because it " ++ reason ++ "." |}.

Definition is_customer_support_email (text : string) : bool :=
  let t := lower text in
  let keywords :=
    [ "support"; "help"; "issue"; "problem"; "error";
      "not working"; "failed"; "urgent"; "asap";
      "delay"; "no response"; "complaint" ] in
  any_in keywords t.

(** The value of [recommended_tone]; [rt_emoji] holds the code points of
    the source's literal. *)
Record Recommended : Type := {
  rt_name : string;
  rt_emoji : list N;
  rt_note : string
}.

(** The dict that [analyze_tone] returns.  The key [model_used] is missing
    from one of the two dict literals of the source: [None] stands for the
    missing key. *)
Record ToneVerdict : Type := {
  label : string;
  confidence : Q;
  style_tags : list string;
  explanation : string;
  needs_rewrite : bool;
  recommended_tone : Recommended;
  model_used : option string
}.

Section Pipeline.

(** What a vectorizer hands to a classifier. *)
Variable Features : Type.

(** A fitted vectorizer: [transform] may raise. *)
Record Vectorizer : Type := {
  transform : list string -> option Features
}.

(** A fitted classifier: the label and the class probabilities of each
    row; either call may raise. *)
Record Classifier : Type := {
  predict : Features -> option (list string);
  predict_proba : Features -> option (list (list Q))
}.

(** [seq[0]] *)
Definition first {A : Type} (l : list A) : option A := hd_error l.

Definition bind {A B : Type} (o : option A) (k : A -> option B) : option B :=
  match o with Some a => k a | None => None end.

Local Notation "x <- e ;; k" := (bind e (fun x => k))
  (at level 61, e at next level, right associativity).

(** The body of the [try] block of [safe_ml_predict]. *)
Definition ml_predict (model : Classifier) (vectorizer : Vectorizer)
    (text : string) : option (string * Q) :=
  X <- transform vectorizer [text] ;;
  preds <- predict model X ;;
  pred <- first preds ;;
  probs <- predict_proba model X ;;
  row <- first probs ;;
  prob <- max_list row ;;
  Some (pred, round2 prob).

Definition safe_ml_predict (model : option Classifier)
    (vectorizer : option Vectorizer) (text : string) : option string * Q :=
  match model, vectorizer with
  | Some m, Some v =>
      match ml_predict m v text with
      | Some (pred, conf) => (Some pred, conf)
      | None => (None, 0%Q)
      end
  | _, _ => (None, 0%Q)
  end.

(** The module's globals, set once when the module is loaded. *)
Variable business_model : option Classifier.
Variable business_vectorizer : option Vectorizer.
Variable complaint_model : option Classifier.
Variable complaint_vectorizer : option Vectorizer.

(** [str.capitalize], which only names the recommended tone. *)
Variable capitalize : string -> string.

(** [a or b] on an optional string: [None] and the empty string are
    falsy. *)
Definition or_else (a : option string) (b : string) : string :=
  match a with
  | Some s => if truthy s then s else b
  | None => b
  end.

Definition analyze_tone (text : string) : ToneVerdict :=
  if blank text then
    {| label := "neutral";
       confidence := 0%Q;
       style_tags := [];
       explanation := "No text provided.";
       needs_rewrite := false;
       recommended_tone :=
         {| rt_name := "Neutral";
            rt_emoji := [128528%N];
            rt_note := "Add content to analyze." |};
       model_used := None |}
  else
    let rule := rule_based_tone text in
    let rule_label := rv_label rule in
    let is_complaint := is_customer_support_email text in
    let '(ml_label, ml_conf, model_used) :=
      if is_complaint then
        (safe_ml_predict complaint_model complaint_vectorizer text,
         "customer_support")
      else
        (safe_ml_predict business_model business_vectorizer text,
         "business_email") in
    let final_label := or_else ml_label rule_label in
    let final_label :=
      if (rule_label =? "harsh")%string then "harsh"
      else if ((rule_label =? "polite")%string
               && (final_label =? "neutral")%string)%bool
           then "polite"
      else final_label in
    let final_label :=
      if (final_label =? "firm")%string then "neutral" else final_label in
    let confidence := max2 ml_conf (rv_confidence rule) in
    let needs_rewrite := (final_label =? "harsh")%string in
    let recommended :=
      if needs_rewrite then
        {| rt_name := "Professional & Polite";
           rt_emoji := [128522%N; 128591%N];
           rt_note := "Rewrite to remove blame and sound respectful." |}
      else
        {| rt_name := capitalize final_label;
           rt_emoji := [10003%N];
           rt_note := "Tone is appropriate." |} in
    {| label := final_label;
       confidence := round2 confidence;
       style_tags := rv_style_tags rule;
       explanation := rv_explanation rule;
       needs_rewrite := needs_rewrite;
       recommended_tone := recommended;
       model_used := Some model_used |}.

(** What [analyze_tone] binds to [(ml_label, ml_conf)]: the answer of the
    scorer that the router selects. *)
Definition scorer_output (text : string) : option string * Q :=
  if is_customer_support_email text
  then safe_ml_predict complaint_model complaint_vectorizer text
  else safe_ml_predict business_model business_vectorizer text.

End Pipeline.

(** The decision logic of [analyze_tone] on the two labels alone. *)
Definition fuse_label (rule_label : string) (ml_label : option string)
    : string :=
  let final_label := or_else ml_label rule_label in
  let final_label :=
    if (rule_label =? "harsh")%string then "harsh"
    else if ((rule_label =? "polite")%string
             && (final_label =? "neutral")%string)%bool
         then "polite"
    else final_label in
  if (final_label =? "firm")%string then "neutral" else final_label.

(** The verdict of [analyze_tone] on a blank text. *)
Definition no_text_verdict : ToneVerdict :=
  {| label := "neutral";
     confidence := 0%Q;
     style_tags := [];
     explanation := "No text provided.";
     needs_rewrite := false;
     recommended_tone :=
       {| rt_name := "Neutral";
          rt_emoji := [128528%N];
          rt_note := "Add content to analyze." |};
     model_used := None |}.

(** The verdict of [analyze_tone] on any other text, from the rule verdict,
    the scorer's answer and the name of the scorer. *)
Definition fused_verdict (capitalize : string -> string)
    (rule : RuleVerdict) (ml : option string * Q) (used : string)
    : ToneVerdict :=
  let l := fuse_label (rv_label rule) (fst ml) in
  {| label := l;
     confidence := round2 (max2 (snd ml) (rv_confidence rule));
     style_tags := rv_style_tags rule;
     explanation := rv_explanation rule;
     needs_rewrite := (l =? "harsh")%string;
     recommended_tone :=
       if (l =? "harsh")%string then
         {| rt_name := "Professional & Polite";
            rt_emoji := [128522%N; 128591%N];
            rt_note := "Rewrite to remove blame and sound respectful." |}
       else
         {| rt_name := capitalize l;
            rt_emoji := [10003%N];
            rt_note := "Tone is appropriate." |};
     model_used := Some used |}.

Definition scorer_name (text : string) : string :=
  if is_customer_support_email text then "customer_support"
  else "business_email".

Definition enum_labels : list string := ["harsh"; "firm"; "polite"; "neutral"].

(** A classifier whose class probabilities are probabilities. *)
Definition calibrated {Features : Type}
    (model : option (Classifier Features)) : Prop :=
  forall m X rows row p,
    model = Some m -> predict_proba _ m X = Some rows ->
    In row rows -> In p row -> unit_interval p.

Arguments transform {Features}.
Arguments predict {Features}.
Arguments predict_proba {Features}.
Arguments Build_Vectorizer {Features}.
Arguments Build_Classifier {Features}.
Arguments safe_ml_predict {Features}.
Arguments ml_predict {Features}.
Arguments analyze_tone {Features}.
Arguments scorer_output {Features}.

End Tone.

(* ================================================================= *)
(** ** services/clarity_service.py *)

Module Clarity.
Import PyStr PyNum.
Local Open Scope re_scope.

Definition VAGUE_WORDS : list string :=
  [ "things"; "stuff"; "something"; "somehow"; "various";
    "etc"; "maybe"; "kind of"; "sort of"; "a bit" ].

Definition CALL_TO_ACTION_VERBS : list string :=
  [ "please"; "request"; "need"; "require"; "could you";
    "send"; "provide"; "update"; "confirm"; "fix" ].

Definition PASSIVE_PATTERNS : list Re.regex :=
  [ \b >> $"was" >> \s+ >> \w+ >> $"ed" >> \b;
    \b >> $"were" >> \s+ >> \w+ >> $"ed" >> \b;
    \b >> $"is" >> \s+ >> \w+ >> $"ed" >> \b;
    \b >> $"has" >> \s+ >> $"been" >> \s+ >> \w+ >> $"ed" >> \b ].

Local Close Scope re_scope.

(** The class [[.!?]] *)
Definition is_terminator (c : ascii) : bool := code_in [46; 33; 63]%N c.

Definition split_sentences (text : string) : list string :=
  map strip (filter (fun s => truthy (strip s)) (split_on is_terminator text)).

(** [len(s.split())] *)
Definition count_words (s : string) : Z := Z.of_nat (List.length (split s)).

(** [x in l] on a list of strings *)
Definition mem (x : string) (l : list string) : bool :=
  existsb (String.eqb x) l.

(** The dict that [analyze_clarity] returns. *)
Record ClarityVerdict : Type := {
  clarity_score : Z;
  issues : list string;
  summary : string
}.

(** The locals [issues] and [score]. *)
Record Locals : Type := {
  l_issues : list string;
  l_score : Q
}.

(** The test of rule 5. *)
Definition abrupt (text : string) : bool :=
  ((count_words text <? 10)
   && negb (Tone.any_in ["please"; "could"; "would"] (lower text)))%bool.

Definition abrupt_issue : string := "Message too short and abrupt.".

(** The issues that the checks before rule 5 append. *)
Definition early_issues : list string :=
  [ "Some sentences are too long and hard to follow.";
    "Message is too long. Consider shortening it.";
    "Text is difficult to read. Use simpler sentences.";
    "Vague wording detected. Be more specific.";
    "Passive voice reduces clarity. Use active voice.";
    "No clear action or request stated.";
    "Passive voice detected. Consider active voice where possible (optional).";
    "Message is quite long. Consider breaking into bullet points." ].

(** The verdict of [analyze_clarity] on a blank text. *)
Definition no_text_verdict : ClarityVerdict :=
  {| clarity_score := 0;
     issues := ["No text provided"];
     summary := "No content to analyze." |}.

Section Analyzer.

(** [textstat.flesch_reading_ease]; [None] when it raises. *)
Variable flesch_reading_ease : string -> option Q.

(** The body of [analyze_clarity] from [issues = []] to the end of
    rule 4: the locals on reaching rule 5. *)
Definition before_rule5 (text : string) : Locals :=
  let issues : list string := [] in
  let sentences := split_sentences text in
  let sentence_count := List.length sentences in
  let word_count := count_words text in
  (* Sentence length *)
  let long_sentences := filter (fun s => 25 <? count_words s) sentences in
  let issues :=
    match long_sentences with
    | _ :: _ =>
        (issues ++ ["Some sentences are too long and hard to follow."])%list
    | [] => issues
    end in
  (* Paragraph length *)
  let issues :=
    if 180 <? word_count
    then (issues ++ ["Message is too long. Consider shortening it."])%list
    else issues in
  (* Readability *)
  let readability : Q :=
    match flesch_reading_ease text with
    | Some r => r
    | None => 50%Q
    end in
  let issues :=
    if Qltb readability 50
    then (issues ++ ["Text is difficult to read. Use simpler sentences."])%list
    else issues in
  (* Vague language *)
  let vague_hits := filter (fun w => contains w (lower text)) VAGUE_WORDS in
  let issues :=
    match vague_hits with
    | _ :: _ => (issues ++ ["Vague wording detected. Be more specific."])%list
    | [] => issues
    end in
  (* Passive voice *)
  let passive_hits := Tone.any_search PASSIVE_PATTERNS (lower text) in
  let issues :=
    if passive_hits
    then (issues ++ ["Passive voice reduces clarity. Use active voice."])%list
    else issues in
  (* Call to action *)
  let issues :=
    if negb (Tone.any_in CALL_TO_ACTION_VERBS (lower text))
    then (issues ++ ["No clear action or request stated."])%list
    else issues in
  (* Clarity score *)
  let score : Q := 100%Q in
  let score := (score - inject_Z (Z.of_nat (List.length long_sentences) * 5))%Q in
  let score := (score - inject_Z (Z.max 0 ((word_count - 150) / 20) * 5))%Q in
  let score := (score - max2 0 (50 - readability))%Q in
  let score := (score - inject_Z (Z.of_nat (List.length vague_hits) * 5))%Q in
  (* 1. *)
  let '(score, issues) :=
    if passive_hits
    then ((score - 5)%Q,
          (issues ++ ["Passive voice detected. Consider active voice where possible (optional)."])%list)
    else (score, issues) in
  (* 2. *)
  let '(score, issues) :=
    if 250 <? word_count
    then ((score - inject_Z (Z.max 0 ((word_count - 200) / 30) * 5))%Q,
          (issues ++ ["Message is quite long. Consider breaking into bullet points."])%list)
    else (score, issues) in
  (* 3. *)
  let score :=
    if Qle_bool 65 readability then min2 100 (score + 5)%Q else score in
  (* 4. *)
  let '(score, issues) :=
    if ((2 <=? Z.of_nat (List.length vague_hits))
        || mem "things" vague_hits || mem "stuff" vague_hits)%bool
    then ((score - inject_Z (Z.of_nat (List.length vague_hits) * 4))%Q,
          (issues ++ ["Vague wording detected. Be more specific."])%list)
    else (score, issues) in
  {| l_issues := issues; l_score := score |}.

Definition analyze_clarity (text : string) : ClarityVerdict :=
  if blank text then
    {| clarity_score := 0;
       issues := ["No text provided"];
       summary := "No content to analyze." |}
  else
    let st := before_rule5 text in
    let issues := l_issues st in
    let score := l_score st in
    (* 5. *)
    let '(score, issues) :=
      if abrupt text
      then ((score - 25)%Q, (issues ++ ["Message too short and abrupt."])%list)
      else (score, issues) in
    let score := Z.max 0 (Z.min 100 (int score)) in
    {| clarity_score := score;
       issues := issues;
       summary :=
         if 75 <=? score then "Clear and easy to understand."
         else "Message could be clearer." |}.

End Analyzer.

End Clarity.

(* ================================================================= *)
(** ** The label priority as the specification words it *)

Module Spec.

(** Section 4.1, "Label decision (first match wins, in this exact priority
    order)": accusatory, then negative and not polite, then commanding and
    not polite, then polite or apology, else neutral. *)
Definition select_label
    (accusatory negative commanding polite apology : bool) : string :=
  if accusatory then "harsh"
  else if (negative && negb polite)%bool then "harsh"
  else if (commanding && negb polite)%bool then "firm"
  else if (polite || apology)%bool then "polite"
  else "neutral".

(** Section 4.4, step 6: firm is not exposed as a final tone. *)
Definition normalize (l : string) : string :=
  if (l =? "firm")%string then "neutral" else l.

End Spec.

(* ================================================================= *)
(** ** Stub scorers for the concrete runs *)

Module Stub.
Import PyStr Tone.

(** A classifier that answers [lbl] with class probabilities [probs] for
    every row. *)
Definition classifier (lbl : string) (probs : list Q) : Classifier unit :=
  {| predict := fun _ => Some [lbl];
     predict_proba := fun _ => Some [probs] |}.

Definition vectorizer : Vectorizer unit :=
  {| transform := fun _ => Some tt |}.

Definition upper_char (c : ascii) : ascii :=
  if in_range 97 122 c then ascii_of_N (code c - 32) else c.

(** [str.capitalize] on ASCII labels. *)
Definition capitalize (s : string) : string :=
  match s with
  | EmptyString => EmptyString
  | String c s' => String (upper_char c) (lower s')
  end.

(** A loaded scorer that answers [lbl] with confidence 0.9 for every text. *)
Definition says (lbl : string) : option (Classifier unit) :=
  Some (classifier lbl [0.1%Q; 0.9%Q]).

Definition loaded : option (Vectorizer unit) := Some vectorizer.

(** A readability index that is the same for every text. *)
Definition readability (q : Q) : string -> option Q := fun _ => Some q.

End Stub.

From Stdlib Require Import Lqa.

(* ================================================================= *)
(** ** services/rewrite_service.py

    The generation service is outside the program: a client is a function
    from the request and the number of the call to what that call does. *)

Module Rewrite.
Import PyStr PyNum.

Definition MODEL_NAME : string := "models/gemini-2.5-flash".

(** The arguments of [client.models.generate_content]. *)
Record Request : Type := {
  rq_model : string;
  rq_contents : string;
  rq_system_instruction : string;
  rq_temperature : Q;
  rq_max_output_tokens : Z
}.

(** What one call does: it returns a response, whose [text] may be [None],
    or it raises; an exception [e] is given by [str(e).upper()]. *)
Inductive reply : Type :=
| Response (text : option string)
| Failure (err : string).

Definition Client : Type := Request -> Z -> reply.

(** How [generate_with_retry] ends: it returns a value ([None] when the loop
    body never ran), or the last exception leaves it. *)
Inductive outcome : Type :=
| Returned (value : option string)
| Raised (err : string).

(** A run of [generate_with_retry]: its end, the number of calls made and
    the arguments of [time.sleep], in order. *)
Record run : Type := {
  r_outcome : outcome;
  r_calls : nat;
  r_sleeps : list Q
}.

(** [str(e).upper()] of the [AttributeError] that [response.text.strip()]
    raises when [response.text] is [None]. *)
Definition no_text_error : string :=
  "'NONETYPE' OBJECT HAS NO ATTRIBUTE 'STRIP'".

Definition is_transient (err : string) : bool :=
  existsb (fun x => contains x err)
          ["503"; "OVERLOADED"; "UNAVAILABLE"; "429"; "LIMIT"].

(** The loop [for attempt in range(1, retries + 1)], from [attempt] on,
    with [left] attempts left. *)
Fixpoint attempts (client : Client) (rq : Request) (retries : Z)
    (base_delay : Q) (left : nat) (attempt : Z) : run :=
  match left with
  | O => {| r_outcome := Returned None; r_calls := 0; r_sleeps := [] |}
  | S left' =>
      let raised (err : string) : run :=
        if (is_transient err && (attempt <? retries))%bool then
          let delay := (base_delay * inject_Z (2 ^ (attempt - 1)))%Q in
          let rest := attempts client rq retries base_delay left' (attempt + 1) in
          {| r_outcome := r_outcome rest;
             r_calls := S (r_calls rest);
             r_sleeps := delay :: r_sleeps rest |}
        else
          {| r_outcome := Raised err; r_calls := 1; r_sleeps := [] |} in
      match client rq attempt with
      | Response (Some text) =>
          {| r_outcome := Returned (Some (strip text));
             r_calls := 1; r_sleeps := [] |}
      | Response None => raised no_text_error
      | Failure err => raised err
      end
  end.

Definition generate_with_retry (client : Client)
    (prompt system_instruction : string)
    (retries : Z) (base_delay temperature : Q) (max_tokens : Z) : run :=
  attempts client
    {| rq_model := MODEL_NAME;
       rq_contents := prompt;
       rq_system_instruction := system_instruction;
       rq_temperature := temperature;
       rq_max_output_tokens := max_tokens |}
    retries base_delay (Z.to_nat retries) 1.

Definition nl : string := String (ascii_of_N 10) EmptyString.
Definition dquote : string := String (ascii_of_N 34) EmptyString.

(** [sep.join(l)] *)
Fixpoint join (sep : string) (l : list string) : string :=
  match l with
  | [] => EmptyString
  | [x] => x
  | x :: l' => x ++ sep ++ join sep l'
  end.

Definition tone_map : list (string * string) :=
  [ ("harsh", "Professional and calm. Remove anger/blame.");
    ("firm", "Professional and firm. Keep urgency. Do not soften too much.");
    ("polite", "Professional and polite.");
    ("neutral", "Professional and neutral.") ].

(** [d[k]] on a dict literal; a missing key raises. *)
Fixpoint lookup (k : string) (d : list (string * string)) : option string :=
  match d with
  | [] => None
  | (k', v) :: d' => if (k =? k')%string then Some v else lookup k d'
  end.

(** [tone_map.get(tone, tone_map["polite"])] *)
Definition tone_instruction (tone : string) : string :=
  match lookup tone tone_map with
  | Some v => v
  | None => "Professional and polite."
  end.

Definition clarity_instr (clarity_issues : option (list string)) : string :=
  match clarity_issues with
  | Some (x :: l) =>
      "Also fix these clarity issues: " ++ join ", " (x :: l) ++ "."
  | _ => EmptyString
  end.

Definition system_instruction : string :=
  "You are a senior business communication expert. "
  ++ "Rewrite emails to be professional, polite, and concise. "
  ++ "Use active voice and a clear call-to-action. "
  ++ "Never add new facts or explanations. "
  ++ "Return only the rewritten email.".

Definition user_prompt (text tone : string)
    (clarity_issues : option (list string)) : string :=
  strip (nl
    ++ "Rewrite this message professionally." ++ nl
    ++ "Keep it under 2 lines." ++ nl
    ++ "Keep the urgency and firmness of the original message." ++ nl
    ++ "Do not make it too soft." ++ nl
    ++ clarity_instr clarity_issues ++ nl
    ++ "Tone guidance: " ++ tone_instruction tone ++ nl
    ++ nl
    ++ "Message: " ++ dquote ++ text ++ dquote ++ nl).

(** The dict that [rewrite_text] returns; the key [model] is missing from
    the dict of a blank text. *)
Record RewriteResult : Type := {
  rewritten_text : option string;
  success : bool;
  model : option string
}.

(** [rewrite_text], with the run of the generation it started, if any. *)
Definition rewrite_text (client : Client) (text tone : string)
    (clarity_issues : option (list string)) : RewriteResult * option run :=
  if blank text then
    ({| rewritten_text := Some EmptyString; success := false; model := None |},
     None)
  else
    let r := generate_with_retry client
               (user_prompt text tone clarity_issues) system_instruction
               5 2 (4 # 10) 3000 in
    match r_outcome r with
    | Returned rewritten =>
        ({| rewritten_text := rewritten; success := true;
            model := Some MODEL_NAME |}, Some r)
    | Raised _ =>
        ({| rewritten_text := Some "Error: Unable to process request.";
            success := false; model := Some MODEL_NAME |}, Some r)
    end.

(** The sleeps before [n] retries: [base_delay * 2 ** k] before retry
    number [k + 1]. *)
Definition delays (base_delay : Q) (n : nat) : list Q :=
  map (fun k => (base_delay * inject_Z (2 ^ Z.of_nat k))%Q) (seq 0 n).

(** The sleeps of the attempts from [attempt] on. *)
Definition delays_from (base_delay : Q) (attempt : Z) (n : nat) : list Q :=
  map (fun k => (base_delay * inject_Z (2 ^ (attempt - 1 + Z.of_nat k)))%Q)
      (seq 0 n).

(** What call number [last] did, for each way a run can end. *)
Definition decided_by (client : Client) (rq : Request) (retries : Z)
    (r : run) (last : Z) : Prop :=
  match r_outcome r with
  | Returned (Some s) =>
      exists text, client rq last = Response (Some text) /\ s = strip text
  | Returned None => False
  | Raised err =>
      (client rq last = Failure err
       \/ (client rq last = Response None /\ err = no_text_error))
      /\ (is_transient err && (last <? retries))%bool = false
  end.

(** Call number [n] raised an error that is retried. *)
Definition failed_transiently (client : Client) (rq : Request) (n : Z) : Prop :=
  exists err, client rq n = Failure err /\ is_transient err = true.

End Rewrite.

(* ================================================================= *)
(** ** app.py and models.py

    The handlers are modelled from the parsed JSON body to the response and
    the row handed to the database session; the bodies are those the front
    end sends: a field is missing or holds a value of its type. *)

Module App.
Import PyStr PyNum.

(** The columns of [EmailAnalysis] that [realtime_analysis] sets; the
    issues are the list that the JSON text of the column encodes. *)
Record EmailAnalysis : Type := {
  ea_user_id : Z;
  ea_email_text : string;
  ea_tone : option string;
  ea_confidence : option Q;
  ea_explanation : option string;
  ea_clarity_score : option Z;
  ea_clarity_issues : list string;
  ea_rewritten_text : option string
}.

(** The body of a request to [/analyze/realtime]. *)
Record AnalyzeBody : Type := {
  ab_text : option string;
  ab_user_id : option Z
}.

(** The body of a request to [/rewrite]. *)
Record RewriteBody : Type := {
  rb_text : option string;
  rb_tone : option string;
  rb_clarity_issues : option (list string)
}.

(** [d.get(k, default)] of an optional field. *)
Definition get_default (field : option string) (default : string) : string :=
  match field with Some s => s | None => default end.

(** Python's truth value of an optional integer. *)
Definition truthy_id (user_id : option Z) : bool :=
  match user_id with
  | Some n => negb (n =? 0)
  | None => false
  end.

(** What [realtime_analysis] answers: status 400, or the two verdicts and
    the row it adds to the session. *)
Inductive analyzed : Type :=
| Missing
| Analyzed (tone : Tone.ToneVerdict) (clarity : Clarity.ClarityVerdict)
           (row : EmailAnalysis).

Section Handlers.

Variable Features : Type.
Variable business_model : option (Tone.Classifier Features).
Variable business_vectorizer : option (Tone.Vectorizer Features).
Variable complaint_model : option (Tone.Classifier Features).
Variable complaint_vectorizer : option (Tone.Vectorizer Features).
Variable capitalize : string -> string.
Variable flesch_reading_ease : string -> option Q.

Definition realtime_analysis (data : AnalyzeBody) : analyzed :=
  let text := strip (get_default (ab_text data) EmptyString) in
  let user_id := ab_user_id data in
  if (negb (truthy text) || negb (truthy_id user_id))%bool then Missing
  else
    let tone_result :=
      Tone.analyze_tone business_model business_vectorizer
        complaint_model complaint_vectorizer capitalize text in
    let clarity_result := Clarity.analyze_clarity flesch_reading_ease text in
    Analyzed tone_result clarity_result
      {| ea_user_id := match user_id with Some n => n | None => 0 end;
         ea_email_text := text;
         ea_tone := Some (Tone.label tone_result);
         ea_confidence := Some (Tone.confidence tone_result);
         ea_explanation := Some (Tone.explanation tone_result);
         ea_clarity_score := Some (Clarity.clarity_score clarity_result);
         ea_clarity_issues := Clarity.issues clarity_result;
         ea_rewritten_text := None |}.

End Handlers.

Arguments realtime_analysis {Features}.

(** The tone that [rewrite] hands to [rewrite_text]. *)
Definition normalize_tone (tone : option string) : string :=
  let tone := lower (Tone.or_else tone "neutral") in
  if Clarity.mem tone ["harsh"; "angry"; "rude"] then "harsh"
  else if Clarity.mem tone ["firm"; "urgent"] then "firm"
  else if Clarity.mem tone ["polite"; "apologetic"; "friendly"] then "polite"
  else "neutral".

(** What [rewrite] answers: status 400 with its fixed dict, or status 200
    with the dict of [rewrite_text]. *)
Inductive rewritten : Type :=
| TextRequired
| Rewritten (result : Rewrite.RewriteResult) (generation : option Rewrite.run).

Definition rewrite (client : Rewrite.Client) (data : RewriteBody) : rewritten :=
  let text := strip (Tone.or_else (rb_text data) EmptyString) in
  if negb (truthy text) then TextRequired
  else
    let tone := normalize_tone (rb_tone data) in
    let clarity_issues :=
      match rb_clarity_issues data with
      | Some (x :: l) => x :: l
      | _ => []
      end in
    let '(result, generation) :=
      Rewrite.rewrite_text client text tone (Some clarity_issues) in
    Rewritten result generation.

(** [s[:n]] *)
Fixpoint take (n : nat) (s : string) : string :=
  match n, s with
  | S n', String c s' => String c (take n' s')
  | _, _ => EmptyString
  end.

(** The entry [text] of an item of [history]. *)
Definition history_text (email_text : string) : string :=
  take 120 email_text
  ++ (if (120 <? String.length email_text)%nat then "..." else EmptyString).

(** The dict that [dashboard] returns. *)
Record Dashboard : Type := {
  total : Z;
  polite : Z;
  neutral : Z;
  harsh : Z
}.

(** [sum(a.tone == t for a in analyses)] *)
Definition count_tone (t : string) (analyses : list EmailAnalysis) : Z :=
  fold_left
    (fun acc a =>
       acc + match ea_tone a with
             | Some t' => if (t' =? t)%string then 1 else 0
             | None => 0
             end)
    analyses 0.

(** [dashboard], from the rows that its query returns. *)
Definition dashboard (analyses : list EmailAnalysis) : Dashboard :=
  {| total := Z.of_nat (List.length analyses);
     polite := count_tone "polite" analyses;
     neutral := count_tone "neutral" analyses;
     harsh := count_tone "harsh" analyses |}.

End App.

(* ================================================================= *)
(** ** Shapes of markers, patterns and positions *)

Module Shape.
Import PyStr.

(** A marker that starts with a character that is not whitespace. *)
Definition starts_unspaced (p : string) : bool :=
  match p with
  | String c _ => negb (isspace c)
  | EmptyString => false
  end.

(** The patterns of the tables all open with [\b]. *)
Fixpoint opens_with_boundary (r : Re.regex) : bool :=
  match r with
  | Re.Boundary => true
  | Re.Cat r1 _ => opens_with_boundary r1
  | _ => false
  end.

(** The character before a position, if any, is whitespace. *)
Definition spaced (prev : option ascii) : bool :=
  match prev with Some c => isspace c | None => true end.

(** Every character of [s] satisfies [P]. *)
Fixpoint every (P : ascii -> bool) (s : string) : bool :=
  match s with
  | EmptyString => true
  | String c s' => (P c && every P s')%bool
  end.

(** The characters that do not end a sentence. *)
Definition inner (c : ascii) : bool := negb (Clarity.is_terminator c).

End Shape.

(* ================================================================= *)
(** ** Names for some issues of the clarity check *)

Module Issue.

Definition passive_issue : string :=
  "Passive voice reduces clarity. Use active voice.".
Definition passive_advice : string :=
  "Passive voice detected. Consider active voice where possible (optional).".
Definition too_long_issue : string :=
  "Message is too long. Consider shortening it.".
Definition bullet_issue : string :=
  "Message is quite long. Consider breaking into bullet points.".
Definition vague_issue : string :=
  "Vague wording detected. Be more specific.".

(** How often [x] occurs in [l]. *)
Definition times (x : string) (l : list string) : nat :=
  List.length (filter (String.eqb x) l).

End Issue.

(* ================================================================= *)
(** ** Stub clients and rows for the concrete runs *)

Module StubClient.

(** A service that is overloaded at every call. *)
Definition overloaded : Rewrite.Client :=
  fun _ _ => Rewrite.Failure "503 UNAVAILABLE".

(** A service that is rate-limited before call number [k] and answers
    [text] from then on. *)
Definition recovers_at (k : Z) (text : string) : Rewrite.Client :=
  fun _ n =>
    if n <? k then Rewrite.Failure "429 RATE LIMIT"
    else Rewrite.Response (Some text).

(** A row with the tone [t]. *)
Definition row (t : option string) : App.EmailAnalysis :=
  {| App.ea_user_id := 1;
     App.ea_email_text := "Hello";
     App.ea_tone := t;
     App.ea_confidence := None;
     App.ea_explanation := None;
     App.ea_clarity_score := None;
     App.ea_clarity_issues := [];
     App.ea_rewritten_text := None |}.

End StubClient.

(* ================================================================= *)
(** ** Strings: blank texts, lowering and containment *)

Module StrFacts.
Import PyStr.

Lemma lstrip_all_space (s : string) :
  all_space s = true -> lstrip s = EmptyString.
Proof.
  induction s as [|c s IH]; simpl; [reflexivity|].
  destruct (isspace c); simpl; [exact IH | discriminate].
Qed.

Lemma lstrip_not_all_space (s : string) :
  all_space s = false ->
  exists c r, lstrip s = String c r /\ isspace c = false.
Proof.
  induction s as [|c s IH]; simpl; [discriminate|].
  destruct (isspace c) eqn:Hc; simpl.
  - exact IH.
  - intros _. exists c, s. split; [reflexivity | exact Hc].
Qed.

Lemma rstrip_keeps_head (c : ascii) (r : string) :
  isspace c = false -> truthy (rstrip (String c r)) = true.
Proof.
  intros Hc. simpl. destruct (rstrip r); [rewrite Hc|]; reflexivity.
Qed.

(** The guard of both analyzers fires exactly on the texts that are empty
    or made of whitespace only. *)
Lemma blank_all_space (s : string) : blank s = all_space s.
Proof.
  unfold blank, strip.
  destruct (all_space s) eqn:Hs.
  - rewrite (lstrip_all_space s Hs). simpl. apply orb_true_r.
  - destruct (lstrip_not_all_space s Hs) as (c & r & Hl & Hc).
    rewrite Hl, (rstrip_keeps_head c r Hc).
    destruct s; [discriminate Hs | reflexivity].
Qed.

Lemma startswith_all_space (c : ascii) (p s : string) :
  isspace c = false -> all_space s = true ->
  startswith (String c p) s = false.
Proof.
  intros Hc Hs. destruct s as [|b s]; [reflexivity|]. simpl in *.
  destruct (Ascii.eqb_spec c b) as [->|]; [|reflexivity].
  rewrite Hc in Hs. discriminate.
Qed.

(** A text that contains a word is not blank. *)
Lemma contains_not_all_space (c : ascii) (p s : string) :
  isspace c = false -> contains (String c p) s = true ->
  all_space s = false.
Proof.
  intros Hc. induction s as [|b s IH]; [discriminate|].
  intros H. destruct (all_space (String b s)) eqn:Hs; [|reflexivity].
  change (contains (String c p) (String b s))
    with (startswith (String c p) (String b s)
          || contains (String c p) s)%bool in H.
  rewrite (startswith_all_space c p _ Hc Hs) in H. simpl in H, Hs.
  apply andb_prop in Hs. destruct Hs as [_ Hs].
  rewrite (IH H) in Hs. discriminate.
Qed.

Lemma startswith_lower (p s : string) :
  startswith p s = true -> startswith (lower p) (lower s) = true.
Proof.
  revert s. induction p as [|a p IH]; intros s; [reflexivity|].
  destruct s as [|b s]; simpl; [discriminate|].
  intros H. apply andb_prop in H. destruct H as [Hab Hp].
  apply Ascii.eqb_eq in Hab. subst b.
  rewrite Ascii.eqb_refl. simpl. exact (IH s Hp).
Qed.

(** Lowering a text keeps every occurrence of a pattern, lowered. *)
Lemma contains_lower (p s : string) :
  contains p s = true -> contains (lower p) (lower s) = true.
Proof.
  induction s as [|b s IH]; intros H.
  - simpl in H. rewrite orb_false_r in H.
    apply startswith_lower in H. simpl in *. rewrite H. reflexivity.
  - change (contains p (String b s))
      with (startswith p (String b s) || contains p s)%bool in H.
    change (contains (lower p) (lower (String b s)))
      with (startswith (lower p) (lower (String b s))
            || contains (lower p) (lower s))%bool.
    apply orb_prop in H. destruct H as [H|H].
    + rewrite (startswith_lower _ _ H). reflexivity.
    + rewrite (IH H). apply orb_true_r.
Qed.

End StrFacts.

(* ================================================================= *)
(** ** Numbers: rounding and maxima stay inside the unit interval *)

Module NumFacts.
Import PyNum.
Local Open Scope Q_scope.

Lemma Qltb_true (a b : Q) : Qltb a b = true -> a < b.
Proof.
  unfold Qltb. intros H. apply Qnot_le_lt. intros Hle.
  apply Qle_bool_iff in Hle. rewrite Hle in H. discriminate.
Qed.

Lemma max2_cases (a b : Q) : max2 a b = a \/ max2 a b = b.
Proof. unfold max2. destruct (Qltb a b); auto. Qed.

Lemma max2_unit (a b : Q) :
  unit_interval a -> unit_interval b -> unit_interval (max2 a b).
Proof. intros Ha Hb. destruct (max2_cases a b) as [-> | ->]; assumption. Qed.

Lemma fold_max2_in (l : list Q) (x : Q) : In (fold_left max2 l x) (x :: l).
Proof.
  revert x. induction l as [|y l IH]; intros x; [left; reflexivity|].
  change (fold_left max2 (y :: l) x) with (fold_left max2 l (max2 x y)).
  destruct (IH (max2 x y)) as [H|H].
  - rewrite <- H.
    destruct (max2_cases x y) as [-> | ->].
    + left. reflexivity.
    + right. left. reflexivity.
  - right. right. exact H.
Qed.

(** [max(row)] is one of the entries of [row]. *)
Lemma max_list_in (l : list Q) (m : Q) : max_list l = Some m -> In m l.
Proof.
  destruct l as [|x l]; simpl; [discriminate|].
  intros H. injection H as <-. apply fold_max2_in.
Qed.

Lemma round_half_even_range (q : Q) (n : Z) :
  0 <= q -> q <= inject_Z n -> (0 <= round_half_even q <= n)%Z.
Proof.
  intros H0 Hn. unfold round_half_even.
  assert (Hf0 : (0 <= Qfloor q)%Z).
  { change 0%Z with (Qfloor 0). apply Qfloor_resp_le. exact H0. }
  assert (Hfn : (Qfloor q <= n)%Z).
  { rewrite <- (Qfloor_Z n). apply Qfloor_resp_le. exact Hn. }
  destruct (Z.eq_dec (Qfloor q) n) as [E|E].
  - assert (Hd : q - inject_Z (Qfloor q) < 1 # 2).
    { rewrite E. apply Qle_lt_trans with 0; [|reflexivity].
      apply (Qplus_le_l _ _ (inject_Z n)). ring_simplify. exact Hn. }
    rewrite (proj1 (Qlt_alt _ _) Hd). lia.
  - destruct (q - inject_Z (Qfloor q) ?= 1 # 2);
      [destruct (Z.even (Qfloor q))| |]; lia.
Qed.

(** Rounding to two decimals keeps a number inside the unit interval. *)
Lemma round2_unit (q : Q) : unit_interval q -> unit_interval (round2 q).
Proof.
  intros [H0 H1]. unfold round2.
  assert (H : (0 <= round_half_even (q * 100) <= 100)%Z).
  { apply round_half_even_range.
    - apply Qmult_le_0_compat; [exact H0 | discriminate].
    - change (inject_Z 100) with (1 * 100).
      apply Qmult_le_compat_r; [exact H1 | discriminate]. }
  unfold unit_interval, Qle. simpl. lia.
Qed.

Lemma unit_zero : unit_interval 0.
Proof. split; discriminate. Qed.

Lemma unit_seven_tenths : unit_interval (7 # 10).
Proof. split; discriminate. Qed.

End NumFacts.

(* ================================================================= *)
(** ** The rule engine and the fusion policy *)

Module ToneFacts.
Import PyStr PyNum Tone StrFacts NumFacts.

Section Fusion.
Context {Features : Type}.
Variables (business_model : option (Classifier Features))
          (business_vectorizer : option (Vectorizer Features))
          (complaint_model : option (Classifier Features))
          (complaint_vectorizer : option (Vectorizer Features))
          (capitalize : string -> string).

Local Notation analyze :=
  (analyze_tone business_model business_vectorizer
                complaint_model complaint_vectorizer capitalize).
Local Notation scorer :=
  (scorer_output business_model business_vectorizer
                 complaint_model complaint_vectorizer).

Lemma analyze_tone_blank (text : string) :
  blank text = true -> analyze text = no_text_verdict.
Proof. intros H. unfold analyze_tone. rewrite H. reflexivity. Qed.

Lemma analyze_tone_nonblank (text : string) :
  blank text = false ->
  analyze text =
  fused_verdict capitalize (rule_based_tone text) (scorer text)
                (scorer_name text).
Proof.
  intros H. unfold analyze_tone, scorer_output, scorer_name. rewrite H.
  generalize (rule_based_tone text). intros rule.
  destruct (is_customer_support_email text).
  - destruct (safe_ml_predict complaint_model complaint_vectorizer text).
    reflexivity.
  - destruct (safe_ml_predict business_model business_vectorizer text).
    reflexivity.
Qed.

End Fusion.

(** *** The rule engine *)

Lemma rule_label_priority (text : string) :
  rv_label (rule_based_tone text) =
  Spec.select_label
    (any_search ACCUSATORY_PATTERNS (lower text))
    (any_in NEGATIVE_KEYWORDS (lower text))
    (any_search COMMANDING_PATTERNS (lower text))
    (any_in POLITE_MARKERS (lower text))
    (any_in APOLOGY_MARKERS (lower text)).
Proof.
  unfold rule_based_tone, Spec.select_label. cbv zeta.
  destruct (any_search ACCUSATORY_PATTERNS (lower text)); [reflexivity|].
  destruct (any_in NEGATIVE_KEYWORDS (lower text)),
           (any_in POLITE_MARKERS (lower text)),
           (any_search COMMANDING_PATTERNS (lower text)),
           (any_in APOLOGY_MARKERS (lower text)); reflexivity.
Qed.

Lemma select_label_enum (a n c p y : bool) :
  In (Spec.select_label a n c p y) enum_labels.
Proof. destruct a, n, c, p, y; simpl; auto 6. Qed.

Lemma rule_label_enum (text : string) :
  In (rv_label (rule_based_tone text)) enum_labels.
Proof. rewrite rule_label_priority. apply select_label_enum. Qed.

(** *** The decision logic on the two labels *)

(** Splits on every string comparison in the goal. *)
Ltac eqb_cases :=
  repeat match goal with
         | |- context [String.eqb ?a ?b] =>
             destruct (String.eqb_spec a b); simpl in *; try congruence; subst
         | H : context [String.eqb ?a ?b] |- _ =>
             destruct (String.eqb_spec a b); simpl in *; try congruence; subst
         end.

Lemma or_else_cases (ml : option string) (r : string) :
  (or_else ml r = r /\ (ml = None \/ ml = Some EmptyString))
  \/ ml = Some (or_else ml r).
Proof.
  destruct ml as [[|c s]|]; simpl; auto.
Qed.

Lemma fuse_rule_harsh (ml : option string) : fuse_label "harsh" ml = "harsh".
Proof. reflexivity. Qed.

Lemma fuse_rule_polite (ml : option string) :
  fuse_label "polite" ml = "harsh" <-> ml = Some "harsh".
Proof.
  unfold fuse_label.
  destruct (or_else_cases ml "polite") as [[-> [-> | ->]] | E].
  - simpl. split; discriminate.
  - simpl. split; discriminate.
  - revert E. generalize (or_else ml "polite"). intros f ->.
    eqb_cases; simpl; split; congruence.
Qed.

Lemma fuse_unavailable (r : string) : fuse_label r None = Spec.normalize r.
Proof.
  unfold fuse_label, or_else, Spec.normalize.
  eqb_cases; reflexivity.
Qed.

Lemma fuse_never_firm (r : string) (ml : option string) :
  fuse_label r ml <> "firm".
Proof.
  unfold fuse_label. generalize (or_else ml r). intros f.
  eqb_cases.
Qed.

Lemma fuse_range (r : string) (ml : option string) :
  In r enum_labels ->
  In (fuse_label r ml) ["harsh"; "polite"; "neutral"]
  \/ ml = Some (fuse_label r ml).
Proof.
  intros Hr.
  assert (Hn : In (Spec.normalize r) ["harsh"; "polite"; "neutral"]).
  { simpl in Hr. destruct Hr as [<-|[<-|[<-|[<-|[]]]]]; simpl; auto. }
  destruct (or_else_cases ml r) as [[_ [-> | ->]] | E].
  - left. rewrite fuse_unavailable. exact Hn.
  - left. change (fuse_label r (Some EmptyString)) with (fuse_label r None).
    rewrite fuse_unavailable. exact Hn.
  - unfold fuse_label. revert E. generalize (or_else ml r). intros f ->.
    eqb_cases; simpl; auto.
Qed.

Lemma fuse_enum (r s : string) :
  In r enum_labels -> In s enum_labels ->
  In (fuse_label r (Some s)) ["harsh"; "polite"; "neutral"].
Proof.
  intros Hr Hs. simpl in Hr, Hs.
  destruct Hr as [<-|[<-|[<-|[<-|[]]]]];
    destruct Hs as [<-|[<-|[<-|[<-|[]]]]]; simpl; auto.
Qed.

End ToneFacts.

(* ================================================================= *)
(** ** The clarity score *)

Module ClarityFacts.
Import PyStr PyNum Clarity.

Section Analyzer.
Variable flesch_reading_ease : string -> option Q.

Lemma analyze_clarity_blank (text : string) :
  blank text = true ->
  analyze_clarity flesch_reading_ease text = no_text_verdict.
Proof. intros H. unfold analyze_clarity. rewrite H. reflexivity. Qed.

Lemma analyze_clarity_issues (text : string) :
  blank text = false ->
  issues (analyze_clarity flesch_reading_ease text) =
  (l_issues (before_rule5 flesch_reading_ease text)
   ++ if abrupt text then [abrupt_issue] else [])%list.
Proof.
  intros H. unfold analyze_clarity. rewrite H.
  destruct (abrupt text); simpl; [reflexivity|].
  symmetry. apply app_nil_r.
Qed.

Lemma analyze_clarity_score (text : string) :
  blank text = false ->
  clarity_score (analyze_clarity flesch_reading_ease text) =
  Z.max 0 (Z.min 100 (int
    (if abrupt text
     then (l_score (before_rule5 flesch_reading_ease text) - 25)%Q
     else l_score (before_rule5 flesch_reading_ease text)))).
Proof.
  intros H. unfold analyze_clarity. rewrite H.
  destruct (abrupt text); reflexivity.
Qed.

Lemma clarity_score_range (text : string) :
  0 <= clarity_score (analyze_clarity flesch_reading_ease text) <= 100.
Proof.
  destruct (blank text) eqn:H.
  - rewrite (analyze_clarity_blank text H). simpl. lia.
  - rewrite (analyze_clarity_score text H). lia.
Qed.

Lemma mem_sound (pool l : list string) :
  forallb (fun x => mem x pool) l = true -> incl l pool.
Proof.
  intros H x Hx. apply (proj1 (forallb_forall _ _) H) in Hx.
  unfold mem in Hx. apply existsb_exists in Hx.
  destruct Hx as (y & Hy & E). apply String.eqb_eq in E. subst y. exact Hy.
Qed.

(** Splits on every test of the issue checks. *)
Ltac split_checks :=
  repeat match goal with
         | |- context [match ?l with [] => _ | _ :: _ => _ end] =>
             destruct l eqn:?; cbn beta iota
         | |- context [if ?c then _ else _] =>
             destruct c eqn:?; cbn beta iota
         end.

Lemma before_rule5_issues (text : string) :
  incl (l_issues (before_rule5 flesch_reading_ease text)) early_issues.
Proof.
  unfold before_rule5. cbv zeta.
  generalize (Qltb
    match flesch_reading_ease text with Some r => r | None => 50%Q end 50).
  generalize (filter (fun w => contains w (lower text)) VAGUE_WORDS).
  generalize (filter (fun s => 25 <? count_words s) (split_sentences text)).
  intros long vague hard.
  split_checks; cbn [l_issues]; apply mem_sound; reflexivity.
Qed.

Lemma abrupt_issue_is_late : ~ In abrupt_issue early_issues.
Proof.
  unfold early_issues, abrupt_issue. cbn [In].
  intros H. repeat (destruct H as [H|H]; [discriminate H|]). exact H.
Qed.

End Analyzer.

End ClarityFacts.

(* ================================================================= *)
(** ** The scorer and the fields taken from the rule engine *)

Module ScorerFacts.
Import PyStr PyNum Tone StrFacts NumFacts.

Lemma first_in {A : Type} (l : list A) (x : A) : first l = Some x -> In x l.
Proof. destruct l; simpl; [discriminate|]. intros [= ->]. left. reflexivity. Qed.

(** The confidence of a calibrated scorer is a probability, also when the
    scorer is missing or fails. *)
Lemma safe_ml_predict_unit {Features : Type}
    (model : option (Classifier Features))
    (vectorizer : option (Vectorizer Features)) (text : string) :
  calibrated model ->
  unit_interval (snd (safe_ml_predict model vectorizer text)).
Proof.
  intros Hcal. unfold safe_ml_predict.
  destruct model as [m|]; [|apply unit_zero].
  destruct vectorizer as [v|]; [|apply unit_zero].
  unfold ml_predict, bind.
  destruct (transform v [text]) as [X|]; [|apply unit_zero].
  destruct (predict m X) as [preds|]; [|apply unit_zero].
  destruct (first preds) as [pred|]; [|apply unit_zero].
  destruct (predict_proba m X) as [probs|] eqn:Hprobs; [|apply unit_zero].
  destruct (first probs) as [row|] eqn:Hrow; [|apply unit_zero].
  destruct (max_list row) as [prob|] eqn:Hmax; [|apply unit_zero].
  simpl. apply round2_unit.
  apply (Hcal m X probs row prob eq_refl Hprobs).
  - apply first_in. exact Hrow.
  - apply max_list_in. exact Hmax.
Qed.

Lemma missing_is_calibrated {Features : Type} :
  calibrated (@None (Classifier Features)).
Proof. intros m X rows row p H. discriminate H. Qed.

Lemma stub_is_calibrated (lbl : string) (probs : list Q) :
  Forall unit_interval probs -> calibrated (Some (Stub.classifier lbl probs)).
Proof.
  intros Hall m X rows row p [= <-] [= <-] [<-|[]] Hp.
  exact (proj1 (Forall_forall _ _) Hall p Hp).
Qed.

Lemma rule_confidence (text : string) :
  rv_confidence (rule_based_tone text) = (7 # 10)%Q.
Proof.
  unfold rule_based_tone. cbv zeta.
  destruct (any_search ACCUSATORY_PATTERNS (lower text)); [reflexivity|].
  destruct (any_in NEGATIVE_KEYWORDS (lower text) &&
            negb (any_in POLITE_MARKERS (lower text)))%bool; [reflexivity|].
  destruct (any_search COMMANDING_PATTERNS (lower text) &&
            negb (any_in POLITE_MARKERS (lower text)))%bool; [reflexivity|].
  destruct (any_in POLITE_MARKERS (lower text) ||
            any_in APOLOGY_MARKERS (lower text))%bool; reflexivity.
Qed.

Lemma rule_style_tags (text : string) :
  let t := lower text in
  rv_style_tags (rule_based_tone text) =
  ((if any_search ACCUSATORY_PATTERNS t then ["accusatory"] else [])
   ++ (if any_search COMMANDING_PATTERNS t then ["commanding"] else [])
   ++ (if any_in POLITE_MARKERS t then ["polite"] else [])
   ++ (if any_in APOLOGY_MARKERS t then ["apologetic"] else [])
   ++ (if any_in URGENT_WORDS t then ["urgent"] else []))%list.
Proof.
  unfold rule_based_tone. cbv zeta.
  destruct (any_search ACCUSATORY_PATTERNS (lower text)); [reflexivity|].
  destruct (any_in NEGATIVE_KEYWORDS (lower text)),
           (any_in POLITE_MARKERS (lower text)),
           (any_search COMMANDING_PATTERNS (lower text)),
           (any_in APOLOGY_MARKERS (lower text)); reflexivity.
Qed.

(** A text with the word please carries the polite flag. *)
Lemma please_is_polite (text : string) :
  contains "please" text = true ->
  any_in POLITE_MARKERS (lower text) = true.
Proof.
  intros H. apply contains_lower in H.
  unfold any_in, POLITE_MARKERS. cbn [existsb].
  change (lower "please") with "please" in H. rewrite H. reflexivity.
Qed.

Lemma please_is_not_blank (text : string) :
  contains "please" text = true -> blank text = false.
Proof.
  intros H. rewrite blank_all_space.
  apply (contains_not_all_space "p" "lease"); [reflexivity | exact H].
Qed.

End ScorerFacts.

(* ================================================================= *)
(** ** The properties of the specification *)

Import PyStr PyNum Tone StrFacts NumFacts ToneFacts ScorerFacts.

Section ToneProperties.
Context {Features : Type}.
Variables (business_model : option (Classifier Features))
          (business_vectorizer : option (Vectorizer Features))
          (complaint_model : option (Classifier Features))
          (complaint_vectorizer : option (Vectorizer Features))
          (capitalize : string -> string).

Local Notation analyze :=
  (analyze_tone business_model business_vectorizer
                complaint_model complaint_vectorizer capitalize).
Local Notation scorer :=
  (scorer_output business_model business_vectorizer
                 complaint_model complaint_vectorizer).

(** C1.  A text that is not blank and whose lowered form matches an
    accusatory pattern gets the final label harsh and is flagged for a
    rewrite, whatever models are loaded and whatever they answer. *)
Theorem accusatory_text_is_harsh (text : string) :
  blank text = false ->
  any_search ACCUSATORY_PATTERNS (lower text) = true ->
  label (analyze text) = "harsh" /\ needs_rewrite (analyze text) = true.
Proof.
  intros Hb Hacc. rewrite (analyze_tone_nonblank _ _ _ _ _ text Hb).
  unfold fused_verdict. cbn [label needs_rewrite].
  rewrite rule_label_priority, Hacc. split; reflexivity.
Qed.

(** C2, as the code has it.  A text that contains please, matches no
    accusatory pattern and holds no negative keyword gets the final label
    harsh exactly when the selected scorer itself answers harsh; with no
    scorer, or any other answer, the label is not harsh. *)
Theorem please_text_harsh_iff_scorer_harsh (text : string) :
  contains "please" text = true ->
  any_search ACCUSATORY_PATTERNS (lower text) = false ->
  any_in NEGATIVE_KEYWORDS (lower text) = false ->
  (label (analyze text) = "harsh" <-> fst (scorer text) = Some "harsh").
Proof.
  intros Hp Hacc Hneg.
  rewrite (analyze_tone_nonblank _ _ _ _ _ text (please_is_not_blank text Hp)).
  unfold fused_verdict. cbn [label].
  rewrite rule_label_priority, Hacc, Hneg, (please_is_polite text Hp).
  replace (Spec.select_label false false
             (any_search COMMANDING_PATTERNS (lower text)) true
             (any_in APOLOGY_MARKERS (lower text))) with "polite".
  - apply fuse_rule_polite.
  - destruct (any_search COMMANDING_PATTERNS (lower text)); reflexivity.
Qed.

(** C3, as the code has it.  On a text that is not blank, when the selected
    scorer answers no label and confidence 0.0, the final label is the
    label of [rule_based_tone] with firm collapsed to neutral; the two
    labels are equal whenever the rule label is not firm. *)
Theorem rule_only_label_is_normalized (text : string) :
  blank text = false ->
  scorer text = (None, 0%Q) ->
  label (analyze text) = Spec.normalize (rv_label (rule_based_tone text))
  /\ (rv_label (rule_based_tone text) <> "firm" ->
      label (analyze text) = rv_label (rule_based_tone text)).
Proof.
  intros Hb Hs. rewrite (analyze_tone_nonblank _ _ _ _ _ text Hb).
  unfold fused_verdict. cbn [label]. rewrite Hs. cbn [fst].
  rewrite fuse_unavailable. split; [reflexivity|].
  unfold Spec.normalize. intros Hfirm.
  destruct (String.eqb_spec (rv_label (rule_based_tone text)) "firm");
    [contradiction | reflexivity].
Qed.

(** C6.  On a text that is empty or made of whitespace only both analyzers
    return their fixed verdict, whatever the models and the readability
    index are: label neutral, confidence 0.0 and no rewrite; clarity score
    0 and the single issue "No text provided". *)
Theorem blank_text_short_circuits
    (flesch_reading_ease : string -> option Q) (text : string) :
  all_space text = true ->
  analyze text = Tone.no_text_verdict
  /\ label (analyze text) = "neutral"
  /\ confidence (analyze text) = 0%Q
  /\ needs_rewrite (analyze text) = false
  /\ Clarity.analyze_clarity flesch_reading_ease text
     = Clarity.no_text_verdict
  /\ Clarity.clarity_score (Clarity.analyze_clarity flesch_reading_ease text)
     = 0
  /\ Clarity.issues (Clarity.analyze_clarity flesch_reading_ease text)
     = ["No text provided"].
Proof.
  intros Hs. rewrite <- blank_all_space in Hs.
  rewrite (analyze_tone_blank _ _ _ _ _ text Hs).
  rewrite (ClarityFacts.analyze_clarity_blank flesch_reading_ease text Hs).
  repeat split.
Qed.

(** C7, as the code has it.  On a text that is not blank the final label is
    harsh, polite or neutral, or else it is the very string that the
    selected scorer answered; it is never firm; and it is harsh, polite or
    neutral whenever the scorer answers nothing or one of the four tones. *)
Theorem final_label_range (text : string) :
  blank text = false ->
  (In (label (analyze text)) ["harsh"; "polite"; "neutral"]
   \/ fst (scorer text) = Some (label (analyze text)))
  /\ label (analyze text) <> "firm"
  /\ ((fst (scorer text) = None
       \/ exists s, fst (scorer text) = Some s /\ In s enum_labels) ->
      In (label (analyze text)) ["harsh"; "polite"; "neutral"]).
Proof.
  intros Hb. rewrite (analyze_tone_nonblank _ _ _ _ _ text Hb).
  unfold fused_verdict. cbn [label].
  pose proof (rule_label_enum text) as Hr.
  split; [|split].
  - apply fuse_range. exact Hr.
  - apply fuse_never_firm.
  - intros [-> | (s & -> & Hs)].
    + rewrite fuse_unavailable. simpl in Hr.
      destruct Hr as [<-|[<-|[<-|[<-|[]]]]]; simpl; auto.
    + apply fuse_enum; assumption.
Qed.

(** C9.  The verdict on a blank text has no [model_used] key; the verdict
    on any other text has one, and it names the scorer that the router
    selected: customer_support or business_email. *)
Theorem model_used_presence (text : string) :
  model_used (analyze text) =
  if all_space text then None
  else Some (if is_customer_support_email text
             then "customer_support" else "business_email").
Proof.
  rewrite <- blank_all_space. destruct (blank text) eqn:Hb.
  - rewrite (analyze_tone_blank _ _ _ _ _ text Hb). reflexivity.
  - rewrite (analyze_tone_nonblank _ _ _ _ _ text Hb). reflexivity.
Qed.

(** The explanation and the style tags of a verdict are those of the rule
    engine, and the fixed ones of the blank verdict on a blank text. *)
Lemma rule_fields (text : string) :
  explanation (analyze text) =
    (if all_space text then "No text provided."
     else rv_explanation (rule_based_tone text))
  /\ style_tags (analyze text) =
    (if all_space text then []
     else rv_style_tags (rule_based_tone text)).
Proof.
  rewrite <- blank_all_space. destruct (blank text) eqn:Hb.
  - rewrite (analyze_tone_blank _ _ _ _ _ text Hb). split; reflexivity.
  - rewrite (analyze_tone_nonblank _ _ _ _ _ text Hb). split; reflexivity.
Qed.

(** The confidence of a verdict is a probability when both classifiers
    are calibrated. *)
Lemma confidence_unit (text : string) :
  calibrated business_model -> calibrated complaint_model ->
  unit_interval (confidence (analyze text)).
Proof.
  intros Hbm Hcm. destruct (blank text) eqn:Hb.
  - rewrite (analyze_tone_blank _ _ _ _ _ text Hb). apply unit_zero.
  - rewrite (analyze_tone_nonblank _ _ _ _ _ text Hb).
    unfold fused_verdict. cbn [confidence].
    apply round2_unit, max2_unit.
    + unfold scorer_output.
      destruct (is_customer_support_email text);
        apply safe_ml_predict_unit; assumption.
    + rewrite rule_confidence. apply unit_seven_tenths.
Qed.

End ToneProperties.


(** C4.  The confidence of every verdict of [analyze_tone] lies in [0,1],
    provided that the class probabilities of each loaded classifier lie in
    [0,1], and the clarity score of every verdict of [analyze_clarity] lies
    in [0,100]. *)
Theorem confidence_and_clarity_bounded {Features : Type}
    (business_model : option (Classifier Features))
    (business_vectorizer : option (Vectorizer Features))
    (complaint_model : option (Classifier Features))
    (complaint_vectorizer : option (Vectorizer Features))
    (capitalize : string -> string)
    (flesch_reading_ease : string -> option Q) (text : string) :
  calibrated business_model ->
  calibrated complaint_model ->
  (0 <= confidence (analyze_tone business_model business_vectorizer
                      complaint_model complaint_vectorizer capitalize text)
     <= 1)%Q
  /\ 0 <= Clarity.clarity_score
            (Clarity.analyze_clarity flesch_reading_ease text) <= 100.
Proof.
  intros Hbm Hcm. split.
  - apply confidence_unit; assumption.
  - apply ClarityFacts.clarity_score_range.
Qed.

(** C5.  [rule_based_tone] picks its label by the priority of the
    specification, from flags that are each computed on the lowered text:
    accusatory, else negative and not polite, else commanding and not
    polite, else polite or apology, else neutral.  Its confidence is 0.7,
    and its style tags are the flags that fired. *)
Theorem rule_based_tone_priority (text : string) :
  rv_label (rule_based_tone text) =
    Spec.select_label
      (any_search ACCUSATORY_PATTERNS (lower text))
      (any_in NEGATIVE_KEYWORDS (lower text))
      (any_search COMMANDING_PATTERNS (lower text))
      (any_in POLITE_MARKERS (lower text))
      (any_in APOLOGY_MARKERS (lower text))
  /\ rv_confidence (rule_based_tone text) = (7 # 10)%Q
  /\ rv_style_tags (rule_based_tone text) =
     ((if any_search ACCUSATORY_PATTERNS (lower text)
       then ["accusatory"] else [])
      ++ (if any_search COMMANDING_PATTERNS (lower text)
          then ["commanding"] else [])
      ++ (if any_in POLITE_MARKERS (lower text) then ["polite"] else [])
      ++ (if any_in APOLOGY_MARKERS (lower text) then ["apologetic"] else [])
      ++ (if any_in URGENT_WORDS (lower text) then ["urgent"] else []))%list.
Proof.
  split; [apply rule_label_priority|].
  split; [apply rule_confidence | apply rule_style_tags].
Qed.

(** C8, as the code has it.  On a text that is not blank, rule 5 of
    [analyze_clarity] appends its issue and takes 25 points off the score
    exactly when the text has fewer than 10 words and its lowered form
    contains none of please, could, would; a text of exactly 10 words never
    triggers it. *)
Theorem abrupt_rule_exact
    (flesch_reading_ease : string -> option Q) (text : string) :
  blank text = false ->
  let st := Clarity.before_rule5 flesch_reading_ease text in
  let v := Clarity.analyze_clarity flesch_reading_ease text in
  let fires :=
    Clarity.count_words text < 10
    /\ any_in ["please"; "could"; "would"] (lower text) = false in
  (In Clarity.abrupt_issue (Clarity.issues v) <-> fires)
  /\ (fires ->
      Clarity.issues v = (Clarity.l_issues st ++ [Clarity.abrupt_issue])%list
      /\ Clarity.clarity_score v
         = Z.max 0 (Z.min 100 (int (Clarity.l_score st - 25)%Q)))
  /\ (~ fires ->
      Clarity.issues v = Clarity.l_issues st
      /\ Clarity.clarity_score v
         = Z.max 0 (Z.min 100 (int (Clarity.l_score st))))
  /\ (Clarity.count_words text = 10 ->
      ~ In Clarity.abrupt_issue (Clarity.issues v)).
Proof.
  intros Hb st v fires.
  assert (Hfires : Clarity.abrupt text = true <-> fires).
  { unfold Clarity.abrupt, fires. rewrite andb_true_iff, negb_true_iff.
    rewrite Z.ltb_lt. reflexivity. }
  pose proof (ClarityFacts.analyze_clarity_issues flesch_reading_ease text Hb)
    as Hi.
  pose proof (ClarityFacts.analyze_clarity_score flesch_reading_ease text Hb)
    as Hsc.
  fold v in Hi, Hsc. fold st in Hi, Hsc.
  assert (Hearly : ~ In Clarity.abrupt_issue (Clarity.l_issues st)).
  { intros Hin.
    apply ClarityFacts.abrupt_issue_is_late.
    exact (ClarityFacts.before_rule5_issues flesch_reading_ease text _ Hin). }
  assert (Hiff : In Clarity.abrupt_issue (Clarity.issues v) <-> fires).
  { rewrite <- Hfires, Hi. destruct (Clarity.abrupt text).
    - split; [reflexivity|]. intros _. apply in_or_app. right. left. reflexivity.
    - rewrite app_nil_r. split; [contradiction | discriminate]. }
  split; [exact Hiff|]. split; [|split].
  - intros Hf. apply Hfires in Hf. rewrite Hf in Hi, Hsc. split; assumption.
  - intros Hnf. destruct (Clarity.abrupt text) eqn:Ha.
    + exfalso. apply Hnf, Hfires. reflexivity.
    + rewrite app_nil_r in Hi. split; assumption.
  - intros Hten Hin. apply Hiff in Hin. destruct Hin as [Hlt _]. lia.
Qed.

(** C10.  On a text that is not blank the explanation and the style tags of
    the verdict are those of [rule_based_tone], whatever the scorer answers;
    so the explanation can name the rule label (here neutral) while the
    final label (here polite) comes from the scorer. *)
Theorem rule_fields_pass_through :
  (forall (Features : Type)
          (business_model : option (Classifier Features))
          (business_vectorizer : option (Vectorizer Features))
          (complaint_model : option (Classifier Features))
          (complaint_vectorizer : option (Vectorizer Features))
          (capitalize : string -> string) (text : string),
     blank text = false ->
     explanation (analyze_tone business_model business_vectorizer
                    complaint_model complaint_vectorizer capitalize text)
       = rv_explanation (rule_based_tone text)
     /\ style_tags (analyze_tone business_model business_vectorizer
                      complaint_model complaint_vectorizer capitalize text)
       = rv_style_tags (rule_based_tone text))
  /\ (exists text : string,
        rv_label (rule_based_tone text) = "neutral"
        /\ label (analyze_tone (Stub.says "polite") Stub.loaded
                    (Stub.says "polite") Stub.loaded Stub.capitalize text)
           = "polite"
        /\ explanation (analyze_tone (Stub.says "polite") Stub.loaded
                          (Stub.says "polite") Stub.loaded Stub.capitalize text)
           = "Tone classified as neutral because it factual language.").
Proof.
  split.
  - intros Features bm bv cm cv cap text Hb.
    pose proof (rule_fields bm bv cm cv cap text) as H.
    rewrite <- blank_all_space, Hb in H. exact H.
  - exists "Hello there team". repeat split.
Qed.

(* ================================================================= *)
(** ** Concrete runs *)

Lemma says_is_calibrated (lbl : string) : calibrated (Stub.says lbl).
Proof.
  apply stub_is_calibrated.
  repeat constructor; discriminate.
Qed.

(** The example of the specification: the scorer answers polite with
    confidence 0.9 and the verdict is harsh all the same. *)
Lemma accusatory_text_is_harsh_witness :
  blank "Why haven't you responded?" = false
  /\ any_search ACCUSATORY_PATTERNS (lower "Why haven't you responded?") = true
  /\ label (analyze_tone (Stub.says "polite") Stub.loaded
              (Stub.says "polite") Stub.loaded Stub.capitalize
              "Why haven't you responded?") = "harsh"
  /\ needs_rewrite (analyze_tone (Stub.says "polite") Stub.loaded
                      (Stub.says "polite") Stub.loaded Stub.capitalize
                      "Why haven't you responded?") = true.
Proof.
  split; [reflexivity|]. split; [reflexivity|].
  apply accusatory_text_is_harsh; reflexivity.
Defined.

(** "please send the report" contains please, matches no accusatory pattern
    and holds no negative keyword; the business scorer answers harsh, and
    harsh is the final label. *)
Lemma please_text_made_harsh_by_scorer :
  ~ (forall (Features : Type)
            (business_model : option (Classifier Features))
            (business_vectorizer : option (Vectorizer Features))
            (complaint_model : option (Classifier Features))
            (complaint_vectorizer : option (Vectorizer Features))
            (capitalize : string -> string) (text : string),
       contains "please" text = true ->
       any_search ACCUSATORY_PATTERNS (lower text) = false ->
       any_in NEGATIVE_KEYWORDS (lower text) = false ->
       label (analyze_tone business_model business_vectorizer
                complaint_model complaint_vectorizer capitalize text)
       <> "harsh").
Proof.
  intros H.
  apply (H unit (Stub.says "harsh") Stub.loaded None None Stub.capitalize
           "please send the report"); reflexivity.
Qed.

Lemma please_text_harsh_iff_scorer_harsh_witness :
  contains "please" "please send the report" = true
  /\ any_search ACCUSATORY_PATTERNS (lower "please send the report") = false
  /\ any_in NEGATIVE_KEYWORDS (lower "please send the report") = false
  /\ (label (analyze_tone (Stub.says "neutral") Stub.loaded None None
               Stub.capitalize "please send the report") = "harsh"
      <-> fst (scorer_output (Stub.says "neutral") Stub.loaded None None
                 "please send the report") = Some "harsh").
Proof.
  split; [reflexivity|]. split; [reflexivity|]. split; [reflexivity|].
  apply please_text_harsh_iff_scorer_harsh; reflexivity.
Defined.

(** "send this now" with no model loaded: the rule label is firm and the
    final label is neutral. *)
Lemma unavailable_scorer_label_is_not_rule_label :
  ~ (forall (Features : Type)
            (business_model : option (Classifier Features))
            (business_vectorizer : option (Vectorizer Features))
            (complaint_model : option (Classifier Features))
            (complaint_vectorizer : option (Vectorizer Features))
            (capitalize : string -> string) (text : string),
       blank text = false ->
       scorer_output business_model business_vectorizer
         complaint_model complaint_vectorizer text = (None, 0%Q) ->
       label (analyze_tone business_model business_vectorizer
                complaint_model complaint_vectorizer capitalize text)
       = rv_label (rule_based_tone text)).
Proof.
  intros H.
  specialize (H unit None None None None Stub.capitalize "send this now"
                eq_refl eq_refl).
  vm_compute in H. discriminate H.
Qed.

Lemma rule_only_label_is_normalized_witness :
  blank "send this now" = false
  /\ scorer_output (Features := unit) None None None None "send this now"
     = (None, 0%Q)
  /\ label (analyze_tone (Features := unit) None None None None
              Stub.capitalize "send this now")
     = Spec.normalize (rv_label (rule_based_tone "send this now")).
Proof.
  split; [reflexivity|]. split; [reflexivity|].
  apply (rule_only_label_is_normalized (Features := unit)); reflexivity.
Defined.

Lemma confidence_and_clarity_bounded_witness :
  calibrated (Stub.says "harsh")
  /\ (0 <= confidence (analyze_tone (Stub.says "harsh") Stub.loaded
                         (Stub.says "harsh") Stub.loaded Stub.capitalize
                         "The report was finished and things were ended.")
        <= 1)%Q
  /\ 0 <= Clarity.clarity_score
            (Clarity.analyze_clarity (Stub.readability 30)
               "The report was finished and things were ended.") <= 100.
Proof.
  split; [apply says_is_calibrated|].
  apply confidence_and_clarity_bounded; apply says_is_calibrated.
Defined.

Lemma blank_text_short_circuits_witness :
  all_space "   " = true
  /\ analyze_tone (Stub.says "harsh") Stub.loaded (Stub.says "harsh")
       Stub.loaded Stub.capitalize "   " = Tone.no_text_verdict
  /\ Clarity.analyze_clarity (Stub.readability 30) "   "
     = Clarity.no_text_verdict.
Proof.
  split; [reflexivity|].
  pose proof (blank_text_short_circuits (Stub.says "harsh") Stub.loaded
                (Stub.says "harsh") Stub.loaded Stub.capitalize
                (Stub.readability 30) "   " eq_refl) as H.
  split; [apply H | apply (proj1 (proj2 (proj2 (proj2 (proj2 H)))))].
Defined.

(** "Hello there team" with a scorer that answers angry: the final label is
    angry, which is none of the four tones. *)
Lemma final_label_outside_enum :
  ~ (forall (Features : Type)
            (business_model : option (Classifier Features))
            (business_vectorizer : option (Vectorizer Features))
            (complaint_model : option (Classifier Features))
            (complaint_vectorizer : option (Vectorizer Features))
            (capitalize : string -> string) (text : string),
       blank text = false ->
       In (label (analyze_tone business_model business_vectorizer
                    complaint_model complaint_vectorizer capitalize text))
          ["harsh"; "firm"; "polite"; "neutral"]).
Proof.
  intros H.
  specialize (H unit (Stub.says "angry") Stub.loaded None None
                Stub.capitalize "Hello there team" eq_refl).
  vm_compute in H.
  repeat (destruct H as [H|H]; [discriminate H|]). exact H.
Qed.

Lemma final_label_range_witness :
  blank "Hello there team" = false
  /\ label (analyze_tone (Stub.says "firm") Stub.loaded None None
              Stub.capitalize "Hello there team") <> "firm".
Proof.
  split; [reflexivity|].
  apply (final_label_range (Stub.says "firm") Stub.loaded None None
           Stub.capitalize "Hello there team" eq_refl).
Defined.

(** The empty text has no word and none of please, could, would, and yet
    its only issue is "No text provided". *)
Lemma abrupt_rule_skipped_on_empty_text :
  ~ (forall (flesch_reading_ease : string -> option Q) (text : string),
       In Clarity.abrupt_issue
          (Clarity.issues (Clarity.analyze_clarity flesch_reading_ease text))
       <-> (Clarity.count_words text < 10
            /\ any_in ["please"; "could"; "would"] (lower text) = false)).
Proof.
  intros H.
  destruct (H (fun _ => None) EmptyString) as [_ H'].
  specialize (H' (conj eq_refl eq_refl)).
  vm_compute in H'. destruct H' as [H'|[]]. discriminate H'.
Qed.

Lemma abrupt_rule_exact_witness :
  blank "stuff stuff stuff" = false
  /\ (In Clarity.abrupt_issue
        (Clarity.issues
           (Clarity.analyze_clarity (Stub.readability 60) "stuff stuff stuff"))
      <-> (Clarity.count_words "stuff stuff stuff" < 10
           /\ any_in ["please"; "could"; "would"] (lower "stuff stuff stuff")
              = false)).
Proof.
  split; [reflexivity|].
  apply (abrupt_rule_exact (Stub.readability 60) "stuff stuff stuff" eq_refl).
Defined.

Lemma rule_fields_pass_through_witness :
  blank "Hello there team" = false
  /\ explanation (analyze_tone (Stub.says "polite") Stub.loaded None None
                    Stub.capitalize "Hello there team")
     = rv_explanation (rule_based_tone "Hello there team").
Proof.
  split; [reflexivity|].
  apply (proj1 rule_fields_pass_through unit (Stub.says "polite") Stub.loaded
           None None Stub.capitalize "Hello there team" eq_refl).
Defined.

(** The scenario of the specification: polite and urgent markers, no
    accusatory, negative or commanding one. *)
Example scenario_polite_urgent :
  rv_label (rule_based_tone
    "This is urgent, please send the report by Friday, thank you.") = "polite"
  /\ rv_style_tags (rule_based_tone
    "This is urgent, please send the report by Friday, thank you.")
     = ["polite"; "urgent"].
Proof. split; reflexivity. Qed.

(** Nine words trigger rule 5 and ten words do not. *)
Example nine_words_are_abrupt :
  Clarity.abrupt "stuff stuff stuff stuff stuff stuff stuff stuff stuff" = true.
Proof. reflexivity. Qed.

Example ten_words_are_not_abrupt :
  Clarity.abrupt
    "stuff stuff stuff stuff stuff stuff stuff stuff stuff stuff" = false.
Proof. reflexivity. Qed.

(** [\b] needs a word boundary before why, and [\s+] takes any run of
    whitespace. *)
Example boundary_is_checked :
  any_search ACCUSATORY_PATTERNS "anywhy haven't you" = false
  /\ any_search ACCUSATORY_PATTERNS "so why   did not you call" = true
  /\ any_search ACCUSATORY_PATTERNS "why did not yourself" = false.
Proof. repeat split. Qed.

(** [\w+ed] gives back characters to let [ed\b] match. *)
Example passive_backtracks :
  any_search Clarity.PASSIVE_PATTERNS "it was needed" = true
  /\ any_search Clarity.PASSIVE_PATTERNS "it was ed" = false
  /\ any_search Clarity.PASSIVE_PATTERNS "he has been warned twice" = true.
Proof. repeat split. Qed.

Example sentences_and_words :
  Clarity.split_sentences "Hi there.  How are you?! Fine" =
    ["Hi there"; "How are you"; "Fine"]
  /\ Clarity.count_words "  Hi there.  How are you?! Fine " = 6.
Proof. split; reflexivity. Qed.

(** A scorer that raises, or answers the empty label, leaves the rule label
    in place. *)
Example failing_scorer_is_unavailable :
  safe_ml_predict
    (Some {| predict := fun _ : unit => None;
             predict_proba := fun _ => Some [[1%Q]] |})
    Stub.loaded "Hello" = (None, 0%Q)
  /\ fuse_label "polite" (Some EmptyString) = "polite".
Proof. split; reflexivity. Qed.

(* ================================================================= *)
(** ** More on strings: characters, stripping and matching on blank text *)

Module TextFacts.
Import PyStr StrFacts Shape.

(** Decides a statement on one character by running it on all of them. *)
Ltac by_cases_on_char c :=
  destruct c as [[] [] [] [] [] [] [] []]; vm_compute; intuition congruence.

Lemma space_is_not_word (c : ascii) : isspace c = true -> isword c = false.
Proof. by_cases_on_char c. Qed.

Lemma lower_char_space (c : ascii) : isspace (lower_char c) = isspace c.
Proof. by_cases_on_char c. Qed.

Lemma lower_char_idem (c : ascii) : lower_char (lower_char c) = lower_char c.
Proof. by_cases_on_char c. Qed.

Lemma lower_idem (s : string) : lower (lower s) = lower s.
Proof.
  induction s as [|c s IH]; simpl; [reflexivity|].
  rewrite lower_char_idem, IH. reflexivity.
Qed.

Lemma all_space_lower (s : string) : all_space (lower s) = all_space s.
Proof.
  induction s as [|c s IH]; simpl; [reflexivity|].
  rewrite lower_char_space, IH. reflexivity.
Qed.

(** *** Stripping *)

Lemma rstrip_head (c : ascii) (r : string) :
  isspace c = false -> exists r', rstrip (String c r) = String c r'.
Proof.
  intros Hc. simpl. destruct (rstrip r) as [|d r'].
  - rewrite Hc. exists EmptyString. reflexivity.
  - exists (String d r'). reflexivity.
Qed.

Lemma rstrip_idem (s : string) : rstrip (rstrip s) = rstrip s.
Proof.
  induction s as [|c s IH]; [reflexivity|].
  simpl. destruct (rstrip s) as [|d r] eqn:E.
  - destruct (isspace c) eqn:Hc; [reflexivity|].
    simpl. rewrite Hc. reflexivity.
  - change (rstrip (String c (String d r)))
      with (match rstrip (String d r) with
            | EmptyString => if isspace c then EmptyString
                             else String c EmptyString
            | x => String c x
            end).
    rewrite IH. reflexivity.
Qed.

(** A stripped string is empty or starts with a character that is not
    whitespace. *)
Lemma strip_cases (s : string) :
  (all_space s = true /\ strip s = EmptyString)
  \/ (all_space s = false
      /\ exists c r, strip s = String c r /\ isspace c = false).
Proof.
  unfold strip. destruct (all_space s) eqn:Hs.
  - left. rewrite (lstrip_all_space s Hs). auto.
  - right. split; [reflexivity|].
    destruct (lstrip_not_all_space s Hs) as (c & r & -> & Hc).
    destruct (rstrip_head c r Hc) as (r' & ->).
    exists c, r'. auto.
Qed.

Lemma lstrip_head (c : ascii) (r : string) :
  isspace c = false -> lstrip (String c r) = String c r.
Proof. intros Hc. simpl. rewrite Hc. reflexivity. Qed.

(** Stripping twice is stripping once. *)
Lemma strip_idem (s : string) : strip (strip s) = strip s.
Proof.
  destruct (strip_cases s) as [[_ E] | [_ (c & r & E & Hc)]].
  - rewrite E. reflexivity.
  - unfold strip at 1. rewrite E, (lstrip_head c r Hc), <- E.
    unfold strip. apply rstrip_idem.
Qed.

(** The text that passes a guard [if not text.strip()] is not blank. *)
Lemma stripped_not_blank (s : string) :
  truthy (strip s) = true -> blank (strip s) = false.
Proof.
  intros H. rewrite blank_all_space.
  destruct (strip_cases s) as [[_ E] | [_ (c & r & E & Hc)]].
  - rewrite E in H. discriminate H.
  - rewrite E. simpl. rewrite Hc. reflexivity.
Qed.

Lemma truthy_strip (s : string) : truthy (strip s) = negb (all_space s).
Proof.
  destruct (strip_cases s) as [[-> ->] | [-> (c & r & -> & _)]]; reflexivity.
Qed.

(** *** No marker and no pattern is found in a blank text *)

Lemma any_in_blank (markers : list string) (s : string) :
  forallb starts_unspaced markers = true ->
  all_space s = true ->
  Tone.any_in markers s = false.
Proof.
  intros Hm Hs. unfold Tone.any_in.
  induction markers as [|p ps IH]; [reflexivity|].
  simpl in Hm. apply andb_prop in Hm. destruct Hm as [Hp Hps].
  simpl. rewrite (IH Hps), orb_false_r.
  destruct p as [|c p]; [discriminate Hp|].
  destruct (contains (String c p) s) eqn:E; [|reflexivity].
  apply negb_true_iff in Hp.
  rewrite (contains_not_all_space c p s Hp E) in Hs. discriminate Hs.
Qed.

Lemma no_end_without_boundary (r : Re.regex) (p : Re.pos) :
  opens_with_boundary r = true -> Re.at_boundary p = false ->
  Re.ends r p = [].
Proof.
  intros Hr Hp. induction r; try discriminate Hr; simpl.
  - rewrite Hp. reflexivity.
  - rewrite (IHr1 Hr). reflexivity.
Qed.

Lemma no_boundary_in_blank (prev : option ascii) (s : string) :
  spaced prev = true -> all_space s = true ->
  Re.at_boundary (prev, s) = false.
Proof.
  intros Hprev Hs. unfold Re.at_boundary, Re.word_before, Re.word_after. simpl.
  assert (Hb : match prev with Some c => isword c | None => false end = false).
  { destruct prev as [c|]; [apply space_is_not_word; exact Hprev | reflexivity]. }
  rewrite Hb. destruct s as [|c s]; [reflexivity|].
  simpl in Hs. apply andb_prop in Hs. destruct Hs as [Hc _].
  rewrite (space_is_not_word c Hc). reflexivity.
Qed.

Lemma search_from_blank (r : Re.regex) (prev : option ascii) (s : string) :
  opens_with_boundary r = true ->
  spaced prev = true -> all_space s = true ->
  Re.search_from r prev s = false.
Proof.
  intros Hr. revert prev. induction s as [|c s IH]; intros prev Hprev Hs.
  - simpl. unfold Re.matches_at.
    rewrite (no_end_without_boundary r _ Hr (no_boundary_in_blank prev _ Hprev Hs)).
    reflexivity.
  - change (Re.search_from r prev (String c s))
      with (Re.matches_at r (prev, String c s)
            || Re.search_from r (Some c) s)%bool.
    unfold Re.matches_at.
    rewrite (no_end_without_boundary r _ Hr (no_boundary_in_blank prev _ Hprev Hs)).
    simpl in Hs. apply andb_prop in Hs. destruct Hs as [Hc Hs].
    rewrite (IH (Some c) Hc Hs). reflexivity.
Qed.

Lemma any_search_blank (patterns : list Re.regex) (s : string) :
  forallb opens_with_boundary patterns = true ->
  all_space s = true ->
  Tone.any_search patterns s = false.
Proof.
  intros Hp Hs. unfold Tone.any_search.
  induction patterns as [|r rs IH]; [reflexivity|].
  simpl in Hp. apply andb_prop in Hp. destruct Hp as [Hr Hrs].
  simpl. rewrite (IH Hrs), orb_false_r.
  apply search_from_blank; [exact Hr | reflexivity | exact Hs].
Qed.

End TextFacts.

(* ================================================================= *)
(** ** Further properties of the rule engine and of the scorer *)

(** X1.  On a text that is empty or made of whitespace only,
    [rule_based_tone] finds no pattern and no marker: the label is neutral,
    there is no style tag and the explanation is the one of factual
    language. *)
Theorem rule_based_tone_blank (text : string) :
  all_space text = true ->
  rule_based_tone text =
  {| rv_label := "neutral";
     rv_confidence := (7 # 10)%Q;
     rv_style_tags := [];
     rv_explanation :=
       "Tone classified as neutral because it factual language." |}.
Proof.
  intros Hs. rewrite <- TextFacts.all_space_lower in Hs.
  unfold rule_based_tone.
  rewrite (TextFacts.any_search_blank ACCUSATORY_PATTERNS _ eq_refl Hs).
  rewrite (TextFacts.any_search_blank COMMANDING_PATTERNS _ eq_refl Hs).
  rewrite (TextFacts.any_in_blank POLITE_MARKERS _ eq_refl Hs).
  rewrite (TextFacts.any_in_blank APOLOGY_MARKERS _ eq_refl Hs).
  rewrite (TextFacts.any_in_blank URGENT_WORDS _ eq_refl Hs).
  rewrite (TextFacts.any_in_blank NEGATIVE_KEYWORDS _ eq_refl Hs).
  reflexivity.
Qed.

Lemma rule_based_tone_blank_witness :
  all_space "   " = true
  /\ rv_label (rule_based_tone "   ") = "neutral"
  /\ rv_style_tags (rule_based_tone "   ") = [].
Proof.
  split; [reflexivity|].
  rewrite (rule_based_tone_blank "   " eq_refl). split; reflexivity.
Defined.

(** X2.  The rule engine and the router do not see letter case: a text and
    its lowered form get the same rule verdict and the same scorer. *)
Theorem rule_engine_ignores_case (text : string) :
  rule_based_tone (lower text) = rule_based_tone text
  /\ is_customer_support_email (lower text) = is_customer_support_email text.
Proof.
  unfold rule_based_tone, is_customer_support_email.
  rewrite TextFacts.lower_idem. split; reflexivity.
Qed.

Module ScorerBounds.
Import PyNum NumFacts.
Local Open Scope Q_scope.

Lemma max2_ge_l (a b : Q) : a <= max2 a b.
Proof.
  unfold max2. destruct (Qltb a b) eqn:E.
  - apply Qlt_le_weak, Qltb_true, E.
  - apply Qle_refl.
Qed.

Lemma max2_ge_r (a b : Q) : b <= max2 a b.
Proof.
  unfold max2. destruct (Qltb a b) eqn:E.
  - apply Qle_refl.
  - unfold Qltb in E. apply negb_false_iff in E.
    apply Qle_bool_iff. exact E.
Qed.

Lemma fold_max2_ge (l : list Q) (x : Q) :
  x <= fold_left max2 l x /\ forall p, In p l -> p <= fold_left max2 l x.
Proof.
  revert x. induction l as [|y l IH]; intros x.
  - split; [apply Qle_refl | intros p []].
  - change (fold_left max2 (y :: l) x) with (fold_left max2 l (max2 x y)).
    destruct (IH (max2 x y)) as [Hx Hl]. split.
    + apply Qle_trans with (max2 x y); [apply max2_ge_l | exact Hx].
    + intros p [<- | Hp].
      * apply Qle_trans with (max2 x y); [apply max2_ge_r | exact Hx].
      * apply Hl, Hp.
Qed.

(** [max(row)] is at least every entry of [row]. *)
Lemma max_list_ge (l : list Q) (m : Q) :
  max_list l = Some m -> forall p, In p l -> p <= m.
Proof.
  destruct l as [|x l]; simpl; [discriminate|].
  intros [= <-] p Hp. destruct (fold_max2_ge l x) as [Hx Hl].
  destruct Hp as [E | Hp]; [rewrite <- E; exact Hx | exact (Hl p Hp)].
Qed.

(** Rounding to two decimals does not go below a hundredth that the number
    reaches. *)
Lemma round2_floor (q : Q) (n : Z) :
  inject_Z n <= q * 100 -> n # 100 <= round2 q.
Proof.
  intros H. unfold round2.
  assert (Hf : (n <= Qfloor (q * 100))%Z).
  { rewrite <- (Qfloor_Z n). apply Qfloor_resp_le. exact H. }
  assert (Hr : (Qfloor (q * 100) <= round_half_even (q * 100))%Z).
  { unfold round_half_even.
    destruct (q * 100 - inject_Z (Qfloor (q * 100)) ?= 1 # 2);
      [destruct (Z.even (Qfloor (q * 100)))| |]; lia. }
  unfold Qle. simpl. lia.
Qed.

Lemma no_label_no_confidence {Features : Type}
    (model : option (Tone.Classifier Features))
    (vectorizer : option (Tone.Vectorizer Features)) (text : string) :
  fst (Tone.safe_ml_predict model vectorizer text) = None ->
  snd (Tone.safe_ml_predict model vectorizer text) = 0.
Proof.
  unfold Tone.safe_ml_predict.
  destruct model as [m|]; [|reflexivity].
  destruct vectorizer as [v|]; [|reflexivity].
  destruct (Tone.ml_predict m v text) as [[pred conf]|];
    [discriminate | reflexivity].
Qed.

End ScorerBounds.

(** X3.  [safe_ml_predict] answers no label only with confidence 0.0, and a
    label only when model and vectorizer are loaded and no call raised: the
    label is the first prediction and the confidence is the largest
    probability of the first row, rounded to two decimals. *)
Theorem safe_ml_predict_answer {Features : Type}
    (model : option (Classifier Features))
    (vectorizer : option (Vectorizer Features)) (text : string) :
  (fst (safe_ml_predict model vectorizer text) = None ->
   snd (safe_ml_predict model vectorizer text) = 0%Q)
  /\ (forall lbl : string,
        fst (safe_ml_predict model vectorizer text) = Some lbl ->
        exists m v X preds row probs prob,
          model = Some m /\ vectorizer = Some v
          /\ transform v [text] = Some X
          /\ predict m X = Some (lbl :: preds)
          /\ predict_proba m X = Some (row :: probs)
          /\ In prob row
          /\ (forall p, In p row -> (p <= prob)%Q)
          /\ snd (safe_ml_predict model vectorizer text) = round2 prob).
Proof.
  unfold safe_ml_predict.
  destruct model as [m|]; [|split; [reflexivity | discriminate]].
  destruct vectorizer as [v|]; [|split; [reflexivity | discriminate]].
  unfold ml_predict, bind.
  destruct (transform v [text]) as [X|] eqn:HX;
    [|split; [reflexivity | discriminate]].
  destruct (predict m X) as [[|pred preds]|] eqn:Hpred; simpl;
    try (split; [reflexivity | discriminate]).
  destruct (predict_proba m X) as [[|row probs]|] eqn:Hprobs; simpl;
    try (split; [reflexivity | discriminate]).
  destruct (max_list row) as [prob|] eqn:Hmax; simpl;
    [|split; [reflexivity | discriminate]].
  split; [discriminate|].
  intros lbl [= <-].
  exists m, v, X, preds, row, probs, prob.
  repeat split; try assumption; try reflexivity.
  - apply max_list_in, Hmax.
  - apply ScorerBounds.max_list_ge, Hmax.
Qed.

Lemma safe_ml_predict_answer_witness :
  fst (safe_ml_predict (Stub.says "polite") None "Hello") = None
  /\ snd (safe_ml_predict (Stub.says "polite") None "Hello") = 0%Q.
Proof.
  split; [reflexivity|].
  apply (proj1 (safe_ml_predict_answer (Stub.says "polite") None "Hello")).
  reflexivity.
Defined.

Section FusionProperties.
Context {Features : Type}.
Variables (business_model : option (Classifier Features))
          (business_vectorizer : option (Vectorizer Features))
          (complaint_model : option (Classifier Features))
          (complaint_vectorizer : option (Vectorizer Features))
          (capitalize : string -> string).

Local Notation analyze :=
  (analyze_tone business_model business_vectorizer
                complaint_model complaint_vectorizer capitalize).
Local Notation scorer :=
  (scorer_output business_model business_vectorizer
                 complaint_model complaint_vectorizer).

Lemma scorer_unavailable_zero (text : string) :
  fst (scorer text) = None -> snd (scorer text) = 0%Q.
Proof.
  unfold scorer_output. destruct (is_customer_support_email text);
    apply ScorerBounds.no_label_no_confidence.
Qed.

Lemma confidence_at_least_rule (text : string) :
  blank text = false -> (7 # 10 <= confidence (analyze text))%Q.
Proof.
  intros Hb. rewrite (analyze_tone_nonblank _ _ _ _ _ text Hb).
  unfold fused_verdict. cbn [confidence]. rewrite rule_confidence.
  apply Qle_trans with (70 # 100)%Q; [unfold Qle; simpl; lia|].
  apply ScorerBounds.round2_floor.
  apply Qle_trans with ((7 # 10) * 100)%Q; [unfold Qle; simpl; lia|].
  apply Qmult_le_compat_r; [apply ScorerBounds.max2_ge_r | discriminate].
Qed.

(** X4.  On a text that is not blank the confidence of the verdict is never
    below 0.7, the confidence of the rule engine, whatever the scorer's own
    confidence is; without a scorer answer it is exactly 0.7. *)
Theorem confidence_floor (text : string) :
  blank text = false ->
  (7 # 10 <= confidence (analyze text))%Q
  /\ (fst (scorer text) = None ->
      confidence (analyze text) = (70 # 100)%Q).
Proof.
  intros Hb. split; [apply confidence_at_least_rule; exact Hb|].
  rewrite (analyze_tone_nonblank _ _ _ _ _ text Hb).
  unfold fused_verdict. cbn [confidence]. rewrite rule_confidence.
  intros Hs. rewrite (scorer_unavailable_zero text Hs). reflexivity.
Qed.

(** X5.  A text with a negative keyword and no polite marker is harsh and
    flagged for a rewrite, whatever the scorer answers: the rule label harsh
    does not need an accusatory pattern to win. *)
Theorem negative_text_is_harsh (text : string) :
  any_in NEGATIVE_KEYWORDS (lower text) = true ->
  any_in POLITE_MARKERS (lower text) = false ->
  label (analyze text) = "harsh" /\ needs_rewrite (analyze text) = true.
Proof.
  intros Hneg Hpol.
  assert (Hb : blank text = false).
  { rewrite blank_all_space, <- TextFacts.all_space_lower.
    destruct (all_space (lower text)) eqn:Hs; [|reflexivity].
    rewrite (TextFacts.any_in_blank NEGATIVE_KEYWORDS _ eq_refl Hs) in Hneg.
    discriminate Hneg. }
  rewrite (analyze_tone_nonblank _ _ _ _ _ text Hb).
  unfold fused_verdict. cbn [label needs_rewrite].
  rewrite rule_label_priority, Hneg, Hpol.
  destruct (any_search ACCUSATORY_PATTERNS (lower text)); split; reflexivity.
Qed.

(** X6.  When the rule label is polite, the final label is polite if the
    scorer gives no label or answers neutral or polite, but it is neutral if
    the scorer answers firm: firm is collapsed after the polite override. *)
Theorem polite_rule_and_scorer (text : string) :
  blank text = false ->
  rv_label (rule_based_tone text) = "polite" ->
  (In (fst (scorer text))
      [None; Some EmptyString; Some "neutral"; Some "polite"] ->
   label (analyze text) = "polite")
  /\ (fst (scorer text) = Some "firm" -> label (analyze text) = "neutral").
Proof.
  intros Hb Hr. rewrite (analyze_tone_nonblank _ _ _ _ _ text Hb).
  unfold fused_verdict. cbn [label]. rewrite Hr. split.
  - intros [<-|[<-|[<-|[<-|[]]]]]; reflexivity.
  - intros ->. reflexivity.
Qed.

End FusionProperties.

(** X7.  The style tags agree with the rule label: a firm label carries the
    tag commanding and not the tag polite, a polite label carries polite or
    apologetic, a neutral label carries at most the tag urgent, and the tag
    accusatory comes only with the label harsh. *)
Theorem label_and_style_tags_agree (text : string) :
  (rv_label (rule_based_tone text) = "firm" ->
   In "commanding" (rv_style_tags (rule_based_tone text))
   /\ ~ In "polite" (rv_style_tags (rule_based_tone text)))
  /\ (rv_label (rule_based_tone text) = "polite" ->
      In "polite" (rv_style_tags (rule_based_tone text))
      \/ In "apologetic" (rv_style_tags (rule_based_tone text)))
  /\ (rv_label (rule_based_tone text) = "neutral" ->
      rv_style_tags (rule_based_tone text) = []
      \/ rv_style_tags (rule_based_tone text) = ["urgent"])
  /\ (In "accusatory" (rv_style_tags (rule_based_tone text)) ->
      rv_label (rule_based_tone text) = "harsh").
Proof.
  rewrite rule_label_priority.
  pose proof (rule_style_tags text) as Ht. cbv zeta in Ht. rewrite Ht.
  destruct (any_search ACCUSATORY_PATTERNS (lower text)),
           (any_in NEGATIVE_KEYWORDS (lower text)),
           (any_search COMMANDING_PATTERNS (lower text)),
           (any_in POLITE_MARKERS (lower text)),
           (any_in APOLOGY_MARKERS (lower text)),
           (any_in URGENT_WORDS (lower text));
    cbn; repeat split; intros; try discriminate; auto;
    try (intuition discriminate).
Qed.

(* ================================================================= *)
(** ** Further properties of the clarity score *)

Module ScoreFacts.
Import PyStr PyNum NumFacts Clarity.
Local Open Scope Q_scope.

Lemma int_floor (q : Q) : (0 <= Qnum q)%Z -> int q = Qfloor q.
Proof.
  intros H. destruct q as [n d]. unfold int, Qfloor. simpl in *.
  apply Z.quot_div_nonneg; lia.
Qed.

Lemma int_nonpos (q : Q) : (Qnum q <= 0)%Z -> (int q <= 0)%Z.
Proof.
  intros H. destruct q as [n d]. unfold int. simpl in *.
  assert (E : (n = - (- n))%Z) by lia. rewrite E.
  rewrite Z.quot_opp_l by lia.
  assert (0 <= Z.quot (- n) (Z.pos d))%Z by (apply Z.quot_pos; lia). lia.
Qed.

(** [int] does not exceed an integer bound of its argument. *)
Lemma int_le (q : Q) (n : Z) :
  q <= inject_Z n -> (0 <= n)%Z -> (int q <= n)%Z.
Proof.
  intros Hq Hn. destruct (Z_lt_le_dec (Qnum q) 0) as [Hneg|Hpos].
  - pose proof (int_nonpos q) as H. lia.
  - rewrite (int_floor q Hpos), <- (Qfloor_Z n).
    apply Qfloor_resp_le. exact Hq.
Qed.

(** [int] reaches an integer that its argument reaches. *)
Lemma int_ge (q : Q) (n : Z) :
  inject_Z n <= q -> (0 <= n)%Z -> (n <= int q)%Z.
Proof.
  intros Hq Hn.
  assert (Hpos : (0 <= Qnum q)%Z).
  { assert (H0 : 0 <= q).
    { apply Qle_trans with (inject_Z n); [|exact Hq].
      unfold Qle. simpl. lia. }
    unfold Qle in H0. simpl in H0. lia. }
  rewrite (int_floor q Hpos), <- (Qfloor_Z n).
  apply Qfloor_resp_le. exact Hq.
Qed.

Lemma sub_le_cap (a b : Q) : a <= 100 -> 0 <= b -> a - b <= 100.
Proof.
  intros Ha Hb. apply Qle_trans with (a - 0).
  - apply Qplus_le_r. apply Qopp_le_compat. exact Hb.
  - apply Qle_trans with a; [|exact Ha].
    unfold Qminus. rewrite Qplus_0_r. apply Qle_refl.
Qed.

Lemma min2_cap (x : Q) : min2 100 x <= 100.
Proof.
  unfold min2. destruct (Qltb x 100) eqn:E.
  - apply Qlt_le_weak, Qltb_true, E.
  - apply Qle_refl.
Qed.

Lemma max2_0_nonneg (x : Q) : 0 <= max2 0 x.
Proof. apply ScorerBounds.max2_ge_l. Qed.

Lemma inject_nonneg (z : Z) : (0 <= z)%Z -> 0 <= inject_Z z.
Proof. intros H. unfold Qle. simpl. lia. Qed.

(** Splits on every test of the checks. *)
Ltac split_checks :=
  repeat match goal with
         | |- context [match ?l with [] => _ | _ :: _ => _ end] =>
             destruct l eqn:?; cbn beta iota
         | |- context [if ?c then _ else _] =>
             destruct c eqn:?; cbn beta iota
         end.

Ltac nonneg :=
  first [ apply inject_nonneg; lia
        | apply max2_0_nonneg
        | discriminate ].

Ltac capped :=
  repeat first [ apply Qle_refl
               | apply min2_cap
               | apply sub_le_cap; [| nonneg] ].

Section Analyzer.
Variable flesch_reading_ease : string -> option Q.

(** The locals on reaching rule 5, from the tests of the checks. *)
Lemma before_rule5_locals (text : string) :
  let long := filter (fun s => (25 <? count_words s)%Z)
                     (split_sentences text) in
  let hits := filter (fun w => contains w (lower text)) VAGUE_WORDS in
  let wc := count_words text in
  let r := match flesch_reading_ease text with
           | Some r => r | None => 50 end in
  let passive := Tone.any_search PASSIVE_PATTERNS (lower text) in
  let rule4 := ((2 <=? Z.of_nat (List.length hits))%Z
                || mem "things" hits || mem "stuff" hits)%bool in
  let s0 := 100 - inject_Z (Z.of_nat (List.length long) * 5)
            - inject_Z (Z.max 0 ((wc - 150) / 20) * 5)
            - max2 0 (50 - r)
            - inject_Z (Z.of_nat (List.length hits) * 5) in
  let s1 := if passive then s0 - 5 else s0 in
  let s2 := if (250 <? wc)%Z
            then s1 - inject_Z (Z.max 0 ((wc - 200) / 30) * 5) else s1 in
  let s3 := if Qle_bool 65 r then min2 100 (s2 + 5) else s2 in
  before_rule5 flesch_reading_ease text =
  {| l_issues :=
       ((match long with
         | [] => []
         | _ :: _ => ["Some sentences are too long and hard to follow."]
         end)
        ++ (if (180 <? wc)%Z then [Issue.too_long_issue] else [])
        ++ (if Qltb r 50
            then ["Text is difficult to read. Use simpler sentences."]
            else [])
        ++ (match hits with [] => [] | _ :: _ => [Issue.vague_issue] end)
        ++ (if passive then [Issue.passive_issue] else [])
        ++ (if negb (Tone.any_in CALL_TO_ACTION_VERBS (lower text))
            then ["No clear action or request stated."] else [])
        ++ (if passive then [Issue.passive_advice] else [])
        ++ (if (250 <? wc)%Z then [Issue.bullet_issue] else [])
        ++ (if rule4 then [Issue.vague_issue] else []))%list;
     l_score :=
       if rule4 then s3 - inject_Z (Z.of_nat (List.length hits) * 4)
       else s3 |}.
Proof.
  unfold before_rule5. cbv zeta.
  generalize (match flesch_reading_ease text with
              | Some r => r | None => 50 end).
  generalize (count_words text).
  generalize (filter (fun w => contains w (lower text)) VAGUE_WORDS).
  generalize (filter (fun s => (25 <? count_words s)%Z) (split_sentences text)).
  intros long vague wc r.
  split_checks; reflexivity.
Qed.

(** No check before rule 5 lifts the score above 100. *)
Lemma before_rule5_capped (text : string) :
  l_score (before_rule5 flesch_reading_ease text) <= 100.
Proof.
  pose proof (before_rule5_locals text) as H. cbv zeta in H. rewrite H.
  cbn [l_score].
  destruct (_ || _ || _)%bool, (Qle_bool 65 _), (250 <? count_words text)%Z,
           (Tone.any_search PASSIVE_PATTERNS (lower text)); capped.
Qed.

End Analyzer.

End ScoreFacts.

(** X8.  A text that triggers the abruptness rule never scores above 75,
    whatever its readability. *)
Theorem abrupt_text_scores_at_most_75
    (flesch_reading_ease : string -> option Q) (text : string) :
  blank text = false ->
  Clarity.abrupt text = true ->
  Clarity.clarity_score (Clarity.analyze_clarity flesch_reading_ease text)
  <= 75.
Proof.
  intros Hb Ha.
  rewrite (ClarityFacts.analyze_clarity_score flesch_reading_ease text Hb), Ha.
  assert (H : int (Clarity.l_score
                     (Clarity.before_rule5 flesch_reading_ease text) - 25)
              <= 75).
  { apply ScoreFacts.int_le; [|lia].
    apply (Qplus_le_l _ _ 25). ring_simplify.
    apply (ScoreFacts.before_rule5_capped flesch_reading_ease text). }
  lia.
Qed.

Module CleanFacts.
Import PyStr PyNum NumFacts Clarity ScoreFacts.
Local Open Scope Q_scope.

Lemma max2_0_nonpos (x : Q) : x <= 0 -> max2 0 x = 0.
Proof.
  intros H. unfold max2, Qltb.
  apply Qle_bool_iff in H. rewrite H. reflexivity.
Qed.

Lemma Qltb_false (a b : Q) : Qltb a b = false -> b <= a.
Proof.
  unfold Qltb. intros H. apply negb_false_iff in H.
  apply Qle_bool_iff. exact H.
Qed.

Lemma min2_floor (x : Q) : 95 <= x -> 95 <= min2 100 x.
Proof.
  intros H. unfold min2. destruct (Qltb x 100); [exact H | discriminate].
Qed.

Lemma length_penalty_small (wc : Z) :
  (wc <= 180)%Z -> inject_Z (Z.max 0 ((wc - 150) / 20) * 5) <= 5.
Proof.
  intros H.
  assert (Hd : ((wc - 150) / 20 < 2)%Z).
  { apply Z.div_lt_upper_bound; lia. }
  change 5 with (inject_Z 5). rewrite <- Zle_Qle. lia.
Qed.

Section Analyzer.
Variable flesch_reading_ease : string -> option Q.

(** With no issue before rule 5, at most the length penalty of a text of
    170 to 180 words is taken off the score. *)
Lemma before_rule5_clean (text : string) :
  l_issues (before_rule5 flesch_reading_ease text) = [] ->
  95 <= l_score (before_rule5 flesch_reading_ease text).
Proof.
  pose proof (before_rule5_locals flesch_reading_ease text) as H.
  cbv zeta in H. rewrite H. cbn [l_issues l_score]. clear H.
  set (r := match flesch_reading_ease text with
            | Some r => r | None => 50 end).
  set (wc := count_words text).
  intros Hi.
  repeat match type of Hi with
         | (_ ++ _)%list = [] =>
             apply app_eq_nil in Hi;
             let H := fresh "Hc" in destruct Hi as [H Hi]
         end.
  destruct (filter (fun s => (25 <? count_words s)%Z) (split_sentences text));
    [|discriminate].
  destruct (filter (fun w => contains w (lower text)) VAGUE_WORDS);
    [|discriminate].
  destruct (Tone.any_search PASSIVE_PATTERNS (lower text)); [discriminate|].
  destruct (250 <? wc)%Z; [discriminate|].
  destruct (180 <? wc)%Z eqn:Hwc; [discriminate|].
  destruct (Qltb r 50) eqn:Hr; [discriminate|].
  apply Z.ltb_ge in Hwc. pose proof (length_penalty_small wc Hwc) as Hk.
  apply Qltb_false in Hr. rewrite (max2_0_nonpos (50 - r)) by lra.
  cbn [List.length Z.of_nat Z.mul inject_Z Z.leb Z.compare orb mem existsb].
  change (inject_Z 0) with 0.
  revert Hk. generalize (inject_Z (Z.max 0 ((wc - 150) / 20) * 5)).
  intros k Hk.
  destruct (Qle_bool 65 r); [apply min2_floor|]; lra.
Qed.

End Analyzer.

End CleanFacts.

(** X9.  A text for which [analyze_clarity] reports no issue scores at
    least 95 and is summarised as clear: only the length penalty of a text
    of 170 to 180 words can lower the score without an issue. *)
Theorem no_issue_scores_at_least_95
    (flesch_reading_ease : string -> option Q) (text : string) :
  Clarity.issues (Clarity.analyze_clarity flesch_reading_ease text) = [] ->
  95 <= Clarity.clarity_score
          (Clarity.analyze_clarity flesch_reading_ease text)
  /\ Clarity.summary (Clarity.analyze_clarity flesch_reading_ease text)
     = "Clear and easy to understand.".
Proof.
  intros Hi. destruct (blank text) eqn:Hb.
  - rewrite (ClarityFacts.analyze_clarity_blank _ text Hb) in Hi.
    discriminate Hi.
  - rewrite (ClarityFacts.analyze_clarity_issues _ text Hb) in Hi.
    apply app_eq_nil in Hi. destruct Hi as [Hi Ha].
    assert (Hn : Clarity.abrupt text = false).
    { destruct (Clarity.abrupt text); [discriminate Ha | reflexivity]. }
    assert (Hs : 95 <= Clarity.clarity_score
                         (Clarity.analyze_clarity flesch_reading_ease text)).
    { rewrite (ClarityFacts.analyze_clarity_score _ text Hb), Hn.
      pose proof (ScoreFacts.int_ge _ 95
                    (CleanFacts.before_rule5_clean _ text Hi)). lia. }
    split; [exact Hs|].
    unfold Clarity.analyze_clarity in *. rewrite Hb in *.
    rewrite Hn in *. cbn [Clarity.clarity_score Clarity.summary] in *.
    destruct (Z.leb_spec 75
      (Z.max 0 (Z.min 100 (int (Clarity.l_score
         (Clarity.before_rule5 flesch_reading_ease text))))));
      [reflexivity | lia].
Qed.

Module IssueFacts.
Import PyStr PyNum Clarity ScoreFacts Issue.

Lemma mem_In (x : string) (l : list string) : mem x l = true <-> In x l.
Proof.
  unfold mem. rewrite existsb_exists. split.
  - intros (y & Hy & E). apply String.eqb_eq in E. subst y. exact Hy.
  - intros H. exists x. split; [exact H | apply String.eqb_refl].
Qed.

Section Analyzer.
Variable flesch_reading_ease : string -> option Q.

(** The issues before rule 5, in the order of the checks. *)
Lemma before_rule5_issue_list (text : string) :
  l_issues (before_rule5 flesch_reading_ease text) =
  ((match filter (fun s => 25 <? count_words s) (split_sentences text) with
    | [] => []
    | _ :: _ => ["Some sentences are too long and hard to follow."]
    end)
   ++ (if 180 <? count_words text then [too_long_issue] else [])
   ++ (if Qltb match flesch_reading_ease text with
                | Some r => r | None => 50%Q end 50
       then ["Text is difficult to read. Use simpler sentences."] else [])
   ++ (match filter (fun w => contains w (lower text)) VAGUE_WORDS with
       | [] => []
       | _ :: _ => [vague_issue]
       end)
   ++ (if Tone.any_search PASSIVE_PATTERNS (lower text)
       then [passive_issue] else [])
   ++ (if negb (Tone.any_in CALL_TO_ACTION_VERBS (lower text))
       then ["No clear action or request stated."] else [])
   ++ (if Tone.any_search PASSIVE_PATTERNS (lower text)
       then [passive_advice] else [])
   ++ (if 250 <? count_words text then [bullet_issue] else [])
   ++ (if ((2 <=? Z.of_nat (List.length
                    (filter (fun w => contains w (lower text)) VAGUE_WORDS)))
           || mem "things"
                (filter (fun w => contains w (lower text)) VAGUE_WORDS)
           || mem "stuff"
                (filter (fun w => contains w (lower text)) VAGUE_WORDS))%bool
       then [vague_issue] else []))%list.
Proof.
  pose proof (before_rule5_locals flesch_reading_ease text) as H.
  cbv zeta in H. rewrite H. reflexivity.
Qed.

(** Which of the paired issues the checks before rule 5 append, and how
    often they append the issue of vague wording. *)
Lemma before_rule5_pairs (text : string) :
  let found := l_issues (before_rule5 flesch_reading_ease text) in
  let hits := filter (fun w => contains w (lower text)) VAGUE_WORDS in
  mem passive_issue found = Tone.any_search PASSIVE_PATTERNS (lower text)
  /\ mem passive_advice found = Tone.any_search PASSIVE_PATTERNS (lower text)
  /\ mem too_long_issue found = (180 <? count_words text)
  /\ mem bullet_issue found = (250 <? count_words text)
  /\ times vague_issue found =
     ((match hits with [] => 0 | _ :: _ => 1 end)
      + (if ((2 <=? Z.of_nat (List.length hits))%Z
             || mem "things" hits || mem "stuff" hits)%bool
         then 1 else 0))%nat.
Proof.
  cbv zeta. rewrite before_rule5_issue_list.
  generalize ((2 <=? Z.of_nat (List.length
                 (filter (fun w => contains w (lower text)) VAGUE_WORDS)))
              || mem "things"
                   (filter (fun w => contains w (lower text)) VAGUE_WORDS)
              || mem "stuff"
                   (filter (fun w => contains w (lower text)) VAGUE_WORDS))%bool.
  intros rule4.
  destruct (filter (fun s => 25 <? count_words s) (split_sentences text)),
           (180 <? count_words text),
           (Qltb match flesch_reading_ease text with
                 | Some r => r | None => 50%Q end 50),
           (filter (fun w => contains w (lower text)) VAGUE_WORDS),
           (Tone.any_search PASSIVE_PATTERNS (lower text)),
           (negb (Tone.any_in CALL_TO_ACTION_VERBS (lower text))),
           (250 <? count_words text),
           rule4;
    repeat split; reflexivity.
Qed.

End Analyzer.

End IssueFacts.

(** X10.  The two issues of passive voice come together, exactly when a
    passive pattern matches the lowered text, and the advice to use bullet
    points never comes without the issue that the message is too long. *)
Theorem paired_issues
    (flesch_reading_ease : string -> option Q) (text : string) :
  blank text = false ->
  (In Issue.passive_issue
      (Clarity.issues (Clarity.analyze_clarity flesch_reading_ease text))
   <-> any_search Clarity.PASSIVE_PATTERNS (lower text) = true)
  /\ (In Issue.passive_advice
        (Clarity.issues (Clarity.analyze_clarity flesch_reading_ease text))
      <-> any_search Clarity.PASSIVE_PATTERNS (lower text) = true)
  /\ (In Issue.bullet_issue
        (Clarity.issues (Clarity.analyze_clarity flesch_reading_ease text))
      -> In Issue.too_long_issue
           (Clarity.issues (Clarity.analyze_clarity flesch_reading_ease text))).
Proof.
  intros Hb.
  rewrite (ClarityFacts.analyze_clarity_issues flesch_reading_ease text Hb).
  destruct (IssueFacts.before_rule5_pairs flesch_reading_ease text)
    as (Hp1 & Hp2 & Hlong & Hbullet & _).
  assert (Hearly : forall x,
            x <> Clarity.abrupt_issue ->
            (In x (Clarity.l_issues
                     (Clarity.before_rule5 flesch_reading_ease text)
                   ++ (if Clarity.abrupt text
                       then [Clarity.abrupt_issue] else []))
             <-> Clarity.mem x (Clarity.l_issues
                   (Clarity.before_rule5 flesch_reading_ease text)) = true)).
  { intros x Hx. rewrite IssueFacts.mem_In, in_app_iff. split; [|auto].
    intros [H|H]; [exact H|].
    destruct (Clarity.abrupt text); [|contradiction].
    destruct H as [E|[]]. symmetry in E. contradiction. }
  rewrite !Hearly by discriminate.
  rewrite Hp1, Hp2, Hlong, Hbullet.
  split; [reflexivity|]. split; [reflexivity|].
  rewrite !Z.ltb_lt. lia.
Qed.

(** X11.  The issue of vague wording is listed once for a single vague
    word other than things and stuff, twice when two or more vague words
    occur or one of them is things or stuff, and not at all otherwise. *)
Theorem vague_issue_count
    (flesch_reading_ease : string -> option Q) (text : string) :
  blank text = false ->
  Issue.times Issue.vague_issue
    (Clarity.issues (Clarity.analyze_clarity flesch_reading_ease text))
  = match filter (fun w => contains w (lower text)) Clarity.VAGUE_WORDS with
    | [] => 0%nat
    | [w] => if ((w =? "things") || (w =? "stuff"))%string%bool
             then 2%nat else 1%nat
    | _ :: _ :: _ => 2%nat
    end.
Proof.
  intros Hb.
  rewrite (ClarityFacts.analyze_clarity_issues flesch_reading_ease text Hb).
  unfold Issue.times. rewrite filter_app, length_app.
  fold (Issue.times Issue.vague_issue
          (Clarity.l_issues (Clarity.before_rule5 flesch_reading_ease text))).
  destruct (IssueFacts.before_rule5_pairs flesch_reading_ease text)
    as (_ & _ & _ & _ & ->).
  assert (Ha : List.length
                 (filter (String.eqb Issue.vague_issue)
                    (if Clarity.abrupt text
                     then [Clarity.abrupt_issue] else [])) = 0%nat).
  { destruct (Clarity.abrupt text); reflexivity. }
  rewrite Ha, Nat.add_0_r.
  destruct (filter (fun w => contains w (lower text)) Clarity.VAGUE_WORDS)
    as [|w [|w' hits]].
  - reflexivity.
  - change (2 <=? Z.of_nat (List.length [w])) with false.
    unfold Clarity.mem. cbn [existsb orb].
    rewrite !orb_false_r.
    rewrite (String.eqb_sym "things" w), (String.eqb_sym "stuff" w).
    destruct ((w =? "things")%string || (w =? "stuff")%string)%bool;
      reflexivity.
  - replace (2 <=? Z.of_nat (List.length (w :: w' :: hits))) with true.
    + reflexivity.
    + symmetry. apply Z.leb_le. cbn [List.length]. lia.
Qed.

(* ================================================================= *)
(** ** The retry loop and the rewrite *)

Module RetryFacts.
Import PyStr PyNum Rewrite.

Section Loop.
Variables (client : Client) (rq : Request) (retries : Z) (base_delay : Q).

Local Notation go := (attempts client rq retries base_delay).
Local Notation delays_from := (Rewrite.delays_from base_delay).
Local Notation decided_by := (Rewrite.decided_by client rq retries).

Lemma delays_from_cons (attempt : Z) (n : nat) :
  delays_from attempt (S n) =
  (base_delay * inject_Z (2 ^ (attempt - 1)))%Q
  :: delays_from (attempt + 1) n.
Proof.
  unfold Rewrite.delays_from. cbn [seq map]. f_equal.
  - do 2 f_equal. f_equal. lia.
  - rewrite <- seq_shift, map_map. apply map_ext. intros k.
    do 2 f_equal. f_equal. lia.
Qed.

(** The loop makes at least one call and at most one call per attempt
    left, sleeps before every call but the first, and does not fall
    through. *)
Lemma attempts_schedule (left : nat) (attempt : Z) :
  attempt + Z.of_nat left = retries + 1 ->
  (0 < left)%nat ->
  (1 <= r_calls (go left attempt) <= left)%nat
  /\ r_sleeps (go left attempt)
     = delays_from attempt (r_calls (go left attempt) - 1)
  /\ r_outcome (go left attempt) <> Returned None.
Proof.
  revert attempt. induction left as [|left IH]; intros attempt Hinv Hpos.
  - lia.
  - cbn [attempts].
    assert (Hraised : forall err,
      let r := if (is_transient err && (attempt <? retries))%bool
               then {| r_outcome := r_outcome (go left (attempt + 1));
                       r_calls := S (r_calls (go left (attempt + 1)));
                       r_sleeps :=
                         (base_delay * inject_Z (2 ^ (attempt - 1)))%Q
                         :: r_sleeps (go left (attempt + 1)) |}
               else {| r_outcome := Raised err; r_calls := 1;
                       r_sleeps := [] |} in
      (1 <= r_calls r <= S left)%nat
      /\ r_sleeps r = delays_from attempt (r_calls r - 1)
      /\ r_outcome r <> Returned None).
    { intros err.
      destruct (is_transient err && (attempt <? retries))%bool eqn:E; cbv zeta.
      - apply andb_prop in E. destruct E as [_ E]. apply Z.ltb_lt in E.
        destruct (IH (attempt + 1)) as (Hc & Hs & Ho); [lia | lia |].
        cbn [r_calls r_sleeps r_outcome]. split; [lia|]. split; [|exact Ho].
        rewrite Hs.
        replace (S (r_calls (go left (attempt + 1))) - 1)%nat
          with (S (r_calls (go left (attempt + 1)) - 1)) by lia.
        symmetry. apply delays_from_cons.
      - cbn. split; [lia|]. split; [reflexivity | discriminate]. }
    destruct (client rq attempt) as [[text|]|err].
    + cbn. split; [lia|]. split; [reflexivity | discriminate].
    + apply Hraised.
    + apply Hraised.
Qed.

(** The last call decides the run and every call before it failed
    transiently. *)
Lemma attempts_last_call (left : nat) (attempt : Z) :
  attempt + Z.of_nat left = retries + 1 ->
  (0 < left)%nat ->
  let r := go left attempt in
  let last := attempt + Z.of_nat (r_calls r) - 1 in
  (forall n, attempt <= n < last -> failed_transiently client rq n)
  /\ decided_by r last.
Proof.
  revert attempt. induction left as [|left IH]; intros attempt Hinv Hpos;
    [lia|].
  cbn [attempts].
  assert (Hraised : forall err,
    (client rq attempt = Failure err
     \/ (client rq attempt = Response None /\ err = no_text_error)) ->
    let r := if (is_transient err && (attempt <? retries))%bool
             then {| r_outcome := r_outcome (go left (attempt + 1));
                     r_calls := S (r_calls (go left (attempt + 1)));
                     r_sleeps :=
                       (base_delay * inject_Z (2 ^ (attempt - 1)))%Q
                       :: r_sleeps (go left (attempt + 1)) |}
             else {| r_outcome := Raised err; r_calls := 1;
                     r_sleeps := [] |} in
    let last := attempt + Z.of_nat (r_calls r) - 1 in
    (forall n, attempt <= n < last -> failed_transiently client rq n)
    /\ decided_by r last).
  { intros err Herr.
    destruct (is_transient err && (attempt <? retries))%bool eqn:E; cbv zeta.
    - apply andb_prop in E. destruct E as [Etr Elt]. apply Z.ltb_lt in Elt.
      assert (Hfail : client rq attempt = Failure err).
      { destruct Herr as [H | [_ ->]]; [exact H | discriminate Etr]. }
      unfold Rewrite.decided_by. cbn [r_calls r_sleeps r_outcome].
      destruct (IH (attempt + 1)) as (Hbefore & Hlast); [lia | lia |].
      cbv zeta in Hbefore, Hlast. unfold Rewrite.decided_by in Hlast.
      replace (attempt + Z.of_nat (S (r_calls (go left (attempt + 1)))) - 1)
        with (attempt + 1 + Z.of_nat (r_calls (go left (attempt + 1))) - 1)
        by lia.
      split; [|exact Hlast].
      intros n Hn. destruct (Z.eq_dec n attempt) as [->|Hne].
      + exists err. split; assumption.
      + apply Hbefore. lia.
    - unfold Rewrite.decided_by. cbn [r_calls r_sleeps r_outcome].
      replace (attempt + Z.of_nat 1 - 1) with attempt by lia.
      split; [intros n Hn; lia | split; assumption]. }
  destruct (client rq attempt) as [[text|]|err] eqn:Hcall.
  - unfold Rewrite.decided_by. cbn [r_calls r_sleeps r_outcome]. cbv zeta.
    replace (attempt + Z.of_nat 1 - 1) with attempt by lia.
    split; [intros n Hn; lia|]. exists text. split; [exact Hcall | reflexivity].
  - apply Hraised. right. split; reflexivity.
  - apply Hraised. left. reflexivity.
Qed.

Lemma delays_from_one (n : nat) :
  delays_from 1 n = Rewrite.delays base_delay n.
Proof.
  unfold Rewrite.delays_from, Rewrite.delays. apply map_ext. intros k.
  replace (1 - 1 + Z.of_nat k) with (Z.of_nat k) by lia. reflexivity.
Qed.

End Loop.

End RetryFacts.

Section RetryProperties.
Variables (client : Rewrite.Client) (prompt system_instruction : string)
          (retries : Z) (base_delay temperature : Q) (max_tokens : Z).

Local Notation request :=
  {| Rewrite.rq_model := Rewrite.MODEL_NAME;
     Rewrite.rq_contents := prompt;
     Rewrite.rq_system_instruction := system_instruction;
     Rewrite.rq_temperature := temperature;
     Rewrite.rq_max_output_tokens := max_tokens |}.
Local Notation run :=
  (Rewrite.generate_with_retry client prompt system_instruction
     retries base_delay temperature max_tokens).

(** X12.  With at least one retry allowed, [generate_with_retry] makes at
    least one call and at most [retries] calls, sleeps [base_delay * 2 ** k]
    before retry number [k + 1] and never after its last call, and does not
    end by returning [None]. *)
Theorem retry_schedule :
  1 <= retries ->
  (1 <= Rewrite.r_calls run <= Z.to_nat retries)%nat
  /\ Rewrite.r_sleeps run
     = Rewrite.delays base_delay (Rewrite.r_calls run - 1)
  /\ Rewrite.r_outcome run <> Rewrite.Returned None.
Proof.
  intros Hr. unfold Rewrite.generate_with_retry.
  rewrite <- RetryFacts.delays_from_one.
  apply RetryFacts.attempts_schedule; lia.
Qed.

(** X13.  The last call of a run decides it and every call before it
    raised an error that is retried: a returned text is the stripped text
    of the last response; a raised error is the error of the last call, or
    the attribute error of a response without text, and it is an error that
    is not retried unless all [retries] calls are used up. *)
Theorem retry_run_decided :
  1 <= retries ->
  (forall n, 1 <= n < Z.of_nat (Rewrite.r_calls run) ->
             Rewrite.failed_transiently client request n)
  /\ match Rewrite.r_outcome run with
     | Rewrite.Returned (Some s) =>
         exists text,
           client request (Z.of_nat (Rewrite.r_calls run))
           = Rewrite.Response (Some text)
           /\ s = strip text
     | Rewrite.Returned None => False
     | Rewrite.Raised err =>
         (client request (Z.of_nat (Rewrite.r_calls run)) = Rewrite.Failure err
          \/ (client request (Z.of_nat (Rewrite.r_calls run))
              = Rewrite.Response None
              /\ err = Rewrite.no_text_error))
         /\ (Rewrite.is_transient err = false
             \/ Z.of_nat (Rewrite.r_calls run) = retries)
     end.
Proof.
  intros Hr. unfold Rewrite.generate_with_retry.
  destruct (RetryFacts.attempts_schedule client request retries base_delay
              (Z.to_nat retries) 1) as ((_ & Hle) & _ & _); [lia | lia |].
  destruct (RetryFacts.attempts_last_call client request retries base_delay
              (Z.to_nat retries) 1) as (Hbefore & Hlast); [lia | lia |].
  cbv zeta in Hbefore, Hlast. unfold Rewrite.decided_by in Hlast.
  set (r := Rewrite.attempts client request retries base_delay
              (Z.to_nat retries) 1) in *.
  replace (1 + Z.of_nat (Rewrite.r_calls r) - 1)
    with (Z.of_nat (Rewrite.r_calls r)) in * by lia.
  split; [exact Hbefore|].
  destruct (Rewrite.r_outcome r) as [[s|]|err]; [exact Hlast | exact Hlast |].
  destruct Hlast as (Hcall & Hstop). split; [exact Hcall|].
  apply andb_false_iff in Hstop. destruct Hstop as [Hstop|Hstop];
    [left; exact Hstop | right].
  apply Z.ltb_ge in Hstop. lia.
Qed.

(** X14.  When every call raises an error that is retried, the run makes
    exactly [retries] calls, sleeps before every call but the first, and
    ends with the error of the last call. *)
Theorem retry_exhausted :
  1 <= retries ->
  (forall n, 1 <= n <= retries ->
             Rewrite.failed_transiently client request n) ->
  Z.of_nat (Rewrite.r_calls run) = retries
  /\ Rewrite.r_sleeps run
     = Rewrite.delays base_delay (Z.to_nat retries - 1)
  /\ exists err,
       Rewrite.r_outcome run = Rewrite.Raised err
       /\ client request retries = Rewrite.Failure err.
Proof.
  intros Hr Hall. unfold Rewrite.generate_with_retry.
  destruct (RetryFacts.attempts_schedule client request retries base_delay
              (Z.to_nat retries) 1) as (Hc & Hs & _); [lia | lia |].
  destruct (RetryFacts.attempts_last_call client request retries base_delay
              (Z.to_nat retries) 1) as (_ & Hlast); [lia | lia |].
  cbv zeta in Hlast. unfold Rewrite.decided_by in Hlast.
  set (r := Rewrite.attempts client request retries base_delay
              (Z.to_nat retries) 1) in *.
  replace (1 + Z.of_nat (Rewrite.r_calls r) - 1)
    with (Z.of_nat (Rewrite.r_calls r)) in * by lia.
  destruct (Hall (Z.of_nat (Rewrite.r_calls r))) as (e & He & Htr); [lia|].
  destruct (Rewrite.r_outcome r) as [[s|]|err].
  - destruct Hlast as (text & Hcall & _). rewrite Hcall in He. discriminate He.
  - contradiction.
  - destruct Hlast as ([Hcall | [Hcall _]] & Hstop);
      rewrite Hcall in He; [|discriminate He].
    injection He as ->. rewrite Htr in Hstop. cbn [andb] in Hstop.
    apply Z.ltb_ge in Hstop.
    assert (Hn : Z.of_nat (Rewrite.r_calls r) = retries) by lia.
    split; [exact Hn|]. split.
    + rewrite Hs, RetryFacts.delays_from_one. f_equal. lia.
    + exists e. split; [reflexivity|]. rewrite <- Hn. exact Hcall.
Qed.

End RetryProperties.

Module RewriteFacts.
Import PyStr Rewrite.

(** What [rewrite_text] does on a text that is not blank. *)
Lemma rewrite_text_generates (client : Client) (text tone : string)
    (clarity_issues : option (list string)) :
  blank text = false ->
  exists r,
    snd (rewrite_text client text tone clarity_issues) = Some r
    /\ (1 <= r_calls r <= 5)%nat
    /\ r_sleeps r = firstn (r_calls r - 1) [2; 4; 8; 16]%Q
    /\ model (fst (rewrite_text client text tone clarity_issues))
       = Some MODEL_NAME
    /\ (success (fst (rewrite_text client text tone clarity_issues)) = true ->
        exists s,
          rewritten_text (fst (rewrite_text client text tone clarity_issues))
          = Some s /\ strip s = s)
    /\ (success (fst (rewrite_text client text tone clarity_issues)) = false ->
        rewritten_text (fst (rewrite_text client text tone clarity_issues))
        = Some "Error: Unable to process request.").
Proof.
  intros Hb. unfold rewrite_text. rewrite Hb.
  unfold generate_with_retry.
  set (rq := {| rq_model := MODEL_NAME;
                rq_contents := user_prompt text tone clarity_issues;
                rq_system_instruction := system_instruction;
                rq_temperature := 4 # 10;
                rq_max_output_tokens := 3000 |}).
  destruct (RetryFacts.attempts_schedule client rq 5 2 (Z.to_nat 5) 1)
    as (Hc & Hs & Hn); [lia | cbn; lia |].
  destruct (RetryFacts.attempts_last_call client rq 5 2 (Z.to_nat 5) 1)
    as (_ & Hd); [lia | cbn; lia |].
  cbv zeta in Hd. unfold decided_by in Hd.
  set (r := attempts client rq 5 2 (Z.to_nat 5) 1) in *.
  exists r.
  assert (Hsleeps : r_sleeps r = firstn (r_calls r - 1) [2; 4; 8; 16]%Q).
  { rewrite Hs. change (Z.to_nat 5) with 5%nat in Hc.
    destruct (r_calls r) as [|[|[|[|[|[|n]]]]]]; try lia; reflexivity. }
  change (Z.to_nat 5) with 5%nat in Hc.
  destruct (r_outcome r) as [[s|]|err];
    cbn [fst snd model success rewritten_text].
  - repeat split; try assumption; try lia; try discriminate.
    intros _. exists s. split; [reflexivity|].
    destruct Hd as (t & _ & ->). apply TextFacts.strip_idem.
  - contradiction.
  - repeat split; try assumption; try lia; try discriminate.
Qed.

End RewriteFacts.

(** X15.  [rewrite_text] starts no generation on a blank text and answers
    the failure dict without the key [model].  On any other text it makes
    between one and five calls, sleeps 2, 4, 8 and 16 seconds before the
    retries (30 seconds at most), and always answers with the key [model]:
    on success a text without whitespace around it, on failure the fixed
    error text. *)
Theorem rewrite_text_outcome (client : Rewrite.Client) (text tone : string)
    (clarity_issues : option (list string)) :
  (blank text = true ->
   Rewrite.rewrite_text client text tone clarity_issues
   = ({| Rewrite.rewritten_text := Some EmptyString;
         Rewrite.success := false;
         Rewrite.model := None |}, None))
  /\ (blank text = false ->
      exists r,
        snd (Rewrite.rewrite_text client text tone clarity_issues) = Some r
        /\ (1 <= Rewrite.r_calls r <= 5)%nat
        /\ Rewrite.r_sleeps r
           = firstn (Rewrite.r_calls r - 1) [2; 4; 8; 16]%Q
        /\ Rewrite.model
             (fst (Rewrite.rewrite_text client text tone clarity_issues))
           = Some Rewrite.MODEL_NAME
        /\ (Rewrite.success
              (fst (Rewrite.rewrite_text client text tone clarity_issues))
            = true ->
            exists s,
              Rewrite.rewritten_text
                (fst (Rewrite.rewrite_text client text tone clarity_issues))
              = Some s /\ strip s = s)
        /\ (Rewrite.success
              (fst (Rewrite.rewrite_text client text tone clarity_issues))
            = false ->
            Rewrite.rewritten_text
              (fst (Rewrite.rewrite_text client text tone clarity_issues))
            = Some "Error: Unable to process request.")).
Proof.
  split.
  - intros Hb. unfold Rewrite.rewrite_text. rewrite Hb. reflexivity.
  - apply RewriteFacts.rewrite_text_generates.
Qed.

(* ================================================================= *)
(** ** The handlers *)

Module AppFacts.
Import PyStr PyNum App.

(** [normalize_tone] answers one of the four tones. *)
Lemma normalize_tone_enum (tone : option string) :
  In (normalize_tone tone) Tone.enum_labels.
Proof.
  unfold normalize_tone. cbv zeta.
  destruct (Clarity.mem _ ["harsh"; "angry"; "rude"]); [simpl; auto|].
  destruct (Clarity.mem _ ["firm"; "urgent"]); [simpl; auto|].
  destruct (Clarity.mem _ ["polite"; "apologetic"; "friendly"]); simpl; auto.
Qed.

Lemma lookup_missing (t : string) :
  ~ In t Tone.enum_labels -> Rewrite.lookup t Rewrite.tone_map = None.
Proof.
  intros H. unfold Rewrite.tone_map. cbn [Rewrite.lookup].
  repeat match goal with
         | |- context [String.eqb t ?k] =>
             destruct (String.eqb_spec t k) as [->|_];
             [exfalso; apply H; simpl; auto 6|]
         end.
  reflexivity.
Qed.

Lemma count_tone_acc (t : string) (l : list EmailAnalysis) (acc : Z) :
  fold_left
    (fun acc a =>
       acc + match ea_tone a with
             | Some t' => if (t' =? t)%string then 1 else 0
             | None => 0
             end) l acc
  = acc + count_tone t l.
Proof.
  unfold count_tone. revert acc. induction l as [|a l IH]; intros acc.
  - simpl. lia.
  - cbn [fold_left]. rewrite IH, (IH (0 + _)). lia.
Qed.

Lemma count_tone_cons (t : string) (a : EmailAnalysis)
    (l : list EmailAnalysis) :
  count_tone t (a :: l) =
  match ea_tone a with
  | Some t' => if (t' =? t)%string then 1 else 0
  | None => 0
  end + count_tone t l.
Proof.
  unfold count_tone at 1. cbn [fold_left]. rewrite count_tone_acc. lia.
Qed.

(** A row is counted by at most one of the three counters, and by one of
    them exactly when its tone is polite, neutral or harsh. *)
Lemma counted_once (tone : option string) :
  let hit t := match tone with
               | Some t' => if (t' =? t)%string then 1 else 0
               | None => 0
               end in
  0 <= hit "polite" /\ 0 <= hit "neutral" /\ 0 <= hit "harsh"
  /\ hit "polite" + hit "neutral" + hit "harsh" <= 1
  /\ (hit "polite" + hit "neutral" + hit "harsh" = 1
      <-> In tone [Some "polite"; Some "neutral"; Some "harsh"]).
Proof.
  cbv zeta. destruct tone as [t|].
  - destruct (String.eqb_spec t "polite") as [->|Hp];
      [cbn; intuition lia|].
    destruct (String.eqb_spec t "neutral") as [->|Hn];
      [cbn; intuition lia|].
    destruct (String.eqb_spec t "harsh") as [->|Hh];
      [cbn; intuition lia|].
    cbn. repeat split; try lia.
    intros [E|[E|[E|[]]]]; injection E as E; congruence.
  - cbn. repeat split; try lia.
    intros [E|[E|[E|[]]]]; discriminate E.
Qed.

Lemma take_length (n : nat) (s : string) :
  String.length (take n s) = Nat.min n (String.length s).
Proof.
  revert s. induction n as [|n IH]; intros s; [reflexivity|].
  destruct s as [|c s]; [reflexivity|]. simpl. rewrite IH. reflexivity.
Qed.

Lemma take_all (n : nat) (s : string) :
  (String.length s <= n)%nat -> take n s = s.
Proof.
  revert s. induction n as [|n IH]; intros s H.
  - destruct s; [reflexivity | simpl in H; lia].
  - destruct s as [|c s]; [reflexivity|]. simpl in *.
    rewrite IH by lia. reflexivity.
Qed.

Lemma append_length (a b : string) :
  String.length (a ++ b) = (String.length a + String.length b)%nat.
Proof.
  induction a as [|c a IH]; simpl; [reflexivity|]. rewrite IH. reflexivity.
Qed.

Lemma append_empty (a : string) : a ++ EmptyString = a.
Proof.
  induction a as [|c a IH]; simpl; [reflexivity|]. rewrite IH. reflexivity.
Qed.

End AppFacts.

(** X16.  The tone that [rewrite] hands on is always one of the four tones,
    whatever the request holds, so its tone instruction is found in
    [tone_map] and the default is not used; normalising a tone that was
    already normalised changes nothing.  A tone outside the four, given to
    [rewrite_text] directly, gets the polite instruction. *)
Theorem normalize_tone_total :
  (forall tone : option string,
     In (App.normalize_tone tone) enum_labels
     /\ Rewrite.lookup (App.normalize_tone tone) Rewrite.tone_map
        = Some (Rewrite.tone_instruction (App.normalize_tone tone))
     /\ App.normalize_tone (Some (App.normalize_tone tone))
        = App.normalize_tone tone)
  /\ (forall tone : string,
        ~ In tone enum_labels ->
        Rewrite.tone_instruction tone = "Professional and polite.").
Proof.
  split.
  - intros tone. pose proof (AppFacts.normalize_tone_enum tone) as H.
    split; [exact H|]. simpl in H.
    destruct H as [<-|[<-|[<-|[<-|[]]]]]; split; reflexivity.
  - intros tone H. unfold Rewrite.tone_instruction.
    rewrite (AppFacts.lookup_missing tone H). reflexivity.
Qed.

(** X17.  [dashboard] counts every row at most once: the three counters
    are not negative and add up to at most the total, and to the total
    exactly when every row has the tone polite, neutral or harsh. *)
Theorem dashboard_counts (analyses : list App.EmailAnalysis) :
  0 <= App.polite (App.dashboard analyses)
  /\ 0 <= App.neutral (App.dashboard analyses)
  /\ 0 <= App.harsh (App.dashboard analyses)
  /\ App.polite (App.dashboard analyses)
     + App.neutral (App.dashboard analyses)
     + App.harsh (App.dashboard analyses)
     <= App.total (App.dashboard analyses)
  /\ (App.polite (App.dashboard analyses)
      + App.neutral (App.dashboard analyses)
      + App.harsh (App.dashboard analyses)
      = App.total (App.dashboard analyses)
      <-> Forall (fun a => In (App.ea_tone a)
                             [Some "polite"; Some "neutral"; Some "harsh"])
                 analyses).
Proof.
  unfold App.dashboard. cbn [App.polite App.neutral App.harsh App.total].
  induction analyses as [|a l IH].
  - cbn. repeat split; try lia. constructor.
  - rewrite !AppFacts.count_tone_cons.
    destruct IH as (Hp & Hn & Hh & Hle & Hiff).
    destruct (AppFacts.counted_once (App.ea_tone a))
      as (Ap & An & Ah & Ale & Aiff).
    cbv zeta in Ap, An, Ah, Ale, Aiff.
    cbn [List.length]. rewrite Nat2Z.inj_succ.
    repeat split; try lia.
    + intros E. constructor.
      * apply Aiff. lia.
      * apply Hiff. lia.
    + intros HF. inversion HF as [|? ? Ha Hl]. subst.
      apply Aiff in Ha. apply Hiff in Hl. lia.
Qed.

(** X18.  The text of a history item is the stored text when that has at
    most 120 characters; otherwise it is its first 120 characters and three
    dots, 123 characters in all. *)
Theorem history_text_length (email_text : string) :
  ((String.length email_text <= 120)%nat ->
   App.history_text email_text = email_text)
  /\ ((120 < String.length email_text)%nat ->
      App.history_text email_text = App.take 120 email_text ++ "..."
      /\ String.length (App.history_text email_text) = 123%nat)
  /\ (String.length (App.history_text email_text) <= 123)%nat.
Proof.
  unfold App.history_text.
  destruct (Nat.ltb_spec 120 (String.length email_text)) as [H|H].
  - rewrite AppFacts.append_length, AppFacts.take_length.
    rewrite Nat.min_l by lia. cbn [String.length].
    repeat split; try lia; reflexivity.
  - rewrite AppFacts.append_empty, (AppFacts.take_all 120 email_text H).
    repeat split; try lia; reflexivity.
Qed.

(** X19.  [rewrite] answers status 400 exactly when the request has no
    text or a blank one.  Otherwise the text it hands on is not blank, so
    [rewrite_text] always starts a generation: the answer carries the key
    [model] and at most five calls were made. *)
Theorem rewrite_handler (client : Rewrite.Client) (data : App.RewriteBody) :
  (App.rewrite client data = App.TextRequired
   <-> all_space (or_else (App.rb_text data) EmptyString) = true)
  /\ (forall result generation,
        App.rewrite client data = App.Rewritten result generation ->
        exists r,
          generation = Some r
          /\ (1 <= Rewrite.r_calls r <= 5)%nat
          /\ Rewrite.model result = Some Rewrite.MODEL_NAME
          /\ (Rewrite.success result = false ->
              Rewrite.rewritten_text result
              = Some "Error: Unable to process request.")).
Proof.
  unfold App.rewrite. cbv zeta.
  set (raw := or_else (App.rb_text data) EmptyString).
  pose proof (TextFacts.truthy_strip raw) as Ht.
  destruct (truthy (strip raw)) eqn:E; cbn [negb].
  - assert (Hb : blank (strip raw) = false)
      by (apply TextFacts.stripped_not_blank; exact E).
    destruct (all_space raw); [discriminate Ht|].
    set (tone := App.normalize_tone (App.rb_tone data)).
    set (issues := Some match App.rb_clarity_issues data with
                          | Some (x :: l) => x :: l
                          | _ => []
                          end).
    destruct (RewriteFacts.rewrite_text_generates client (strip raw) tone
                issues Hb) as (r & Hgen & Hc & _ & Hm & _ & Hf).
    destruct (Rewrite.rewrite_text client (strip raw) tone issues)
      as [res gen].
    cbn [fst snd] in *. split; [split; discriminate|].
    intros result generation [= <- <-].
    exists r. repeat split; try assumption; lia.
  - destruct (all_space raw); [|discriminate Ht].
    split; [split; reflexivity|]. intros result generation H. discriminate H.
Qed.

Section RealtimeProperties.
Context {Features : Type}.
Variables (business_model : option (Classifier Features))
          (business_vectorizer : option (Vectorizer Features))
          (complaint_model : option (Classifier Features))
          (complaint_vectorizer : option (Vectorizer Features))
          (capitalize : string -> string)
          (flesch_reading_ease : string -> option Q).

Local Notation handler :=
  (App.realtime_analysis business_model business_vectorizer
     complaint_model complaint_vectorizer capitalize flesch_reading_ease).


End RealtimeProperties.

(* ================================================================= *)
(** ** Sentences and words *)

Module SplitFacts.
Import PyStr StrFacts Shape.

Lemma every_rev (P : ascii -> bool) (acc s : string) :
  every P (rev_string acc s) = (every P acc && every P s)%bool.
Proof.
  revert acc. induction s as [|c s IH]; intros acc; simpl.
  - rewrite andb_true_r. reflexivity.
  - rewrite IH. simpl. destruct (P c), (every P acc), (every P s); reflexivity.
Qed.

(** No field of a split holds a separator. *)
Lemma split_on_fields (sep : ascii -> bool) (s cur f : string) :
  every (fun c => negb (sep c)) cur = true ->
  In f (split_on_aux sep cur s) ->
  every (fun c => negb (sep c)) f = true.
Proof.
  revert cur. induction s as [|c s IH]; intros cur Hcur Hin.
  - destruct Hin as [<-|[]]. rewrite every_rev, Hcur. reflexivity.
  - simpl in Hin. destruct (sep c) eqn:Hc.
    + destruct Hin as [<-|Hin].
      * rewrite every_rev, Hcur. reflexivity.
      * apply (IH EmptyString); [reflexivity | exact Hin].
    + apply (IH (String c cur)); [|exact Hin].
      simpl. rewrite Hc, Hcur. reflexivity.
Qed.

Lemma every_lstrip (P : ascii -> bool) (s : string) :
  every P s = true -> every P (lstrip s) = true.
Proof.
  induction s as [|c s IH]; [reflexivity|]. intros H. simpl.
  destruct (isspace c); [|exact H].
  simpl in H. apply andb_prop in H. apply IH, H.
Qed.

Lemma every_rstrip (P : ascii -> bool) (s : string) :
  every P s = true -> every P (rstrip s) = true.
Proof.
  induction s as [|c s IH]; [reflexivity|]. intros H.
  simpl in H. apply andb_prop in H. destruct H as [Hc Hs].
  specialize (IH Hs). simpl. destruct (rstrip s) as [|d r].
  - destruct (isspace c); [reflexivity|]. simpl. rewrite Hc. reflexivity.
  - change (every P (String c (String d r)))
      with (P c && every P (String d r))%bool.
    rewrite Hc, IH. reflexivity.
Qed.

Lemma every_strip (P : ascii -> bool) (s : string) :
  every P s = true -> every P (strip s) = true.
Proof. intros H. apply every_rstrip, every_lstrip, H. Qed.

Lemma truthy_rev (acc s : string) :
  truthy (rev_string acc s) = (truthy acc || truthy s)%bool.
Proof.
  revert acc. induction s as [|c s IH]; intros acc; simpl.
  - rewrite orb_false_r. reflexivity.
  - rewrite IH. simpl. rewrite orb_true_r. reflexivity.
Qed.

Lemma truthy_rev_empty (cur : string) :
  truthy (rev_string EmptyString cur) = truthy cur.
Proof. rewrite truthy_rev. reflexivity. Qed.

(** A split on whitespace finds no word exactly in a blank text. *)
Lemma no_word (cur s : string) :
  filter truthy (split_on_aux isspace cur s) = []
  <-> cur = EmptyString /\ all_space s = true.
Proof.
  revert cur. induction s as [|c s IH]; intros cur.
  - cbn [split_on_aux filter all_space]. rewrite truthy_rev_empty.
    destruct cur; cbn [truthy]; split; try discriminate; auto.
    intros [H _]. discriminate H.
  - cbn [split_on_aux all_space]. destruct (isspace c) eqn:Hc.
    + cbn [filter andb]. rewrite truthy_rev_empty.
      destruct cur as [|d cur]; cbn [truthy].
      * rewrite IH. split; [intros [_ H] | intros [_ H]]; auto.
      * split; [discriminate | intros [H _]; discriminate H].
    + rewrite IH. cbn [andb].
      split; [intros [H _] | intros [_ H]]; discriminate H.
Qed.

End SplitFacts.

(** X21.  Every sentence that [split_sentences] returns is not empty, has
    no whitespace around it and holds none of the characters that end a
    sentence. *)
Theorem sentences_are_clean (text s : string) :
  In s (Clarity.split_sentences text) ->
  truthy s = true
  /\ strip s = s
  /\ Shape.every Shape.inner s = true.
Proof.
  unfold Clarity.split_sentences. intros H.
  apply in_map_iff in H. destruct H as (f & <- & Hf).
  apply filter_In in Hf. destruct Hf as (Hf & Ht).
  split; [exact Ht|]. split; [apply TextFacts.strip_idem|].
  apply SplitFacts.every_strip.
  apply (SplitFacts.split_on_fields Clarity.is_terminator text EmptyString);
    [reflexivity | exact Hf].
Qed.

(** X22.  A text has no word exactly when it is empty or made of whitespace
    only, so [analyze_clarity] counts at least one word in every text that
    passes its guard. *)
Theorem no_word_iff_blank (text : string) :
  (Clarity.count_words text = 0 <-> all_space text = true)
  /\ (blank text = false -> 1 <= Clarity.count_words text).
Proof.
  assert (H : Clarity.count_words text = 0 <-> all_space text = true).
  { pose proof (SplitFacts.no_word EmptyString text) as Hw.
    unfold Clarity.count_words, split, split_on.
    destruct (filter truthy (split_on_aux isspace EmptyString text))
      as [|w ws].
    - split; [intros _; apply Hw; reflexivity | reflexivity].
    - split.
      + cbn [List.length]. lia.
      + intros Hs. destruct Hw as [_ Hw].
        discriminate (Hw (conj eq_refl Hs)). }
  split; [exact H|].
  rewrite blank_all_space. intros Hb.
  assert (Clarity.count_words text <> 0) by (rewrite H, Hb; discriminate).
  unfold Clarity.count_words in *. lia.
Qed.

(* ================================================================= *)
(** ** Concrete runs of the further properties *)

Lemma confidence_floor_witness :
  blank "Hello there team" = false
  /\ (7 # 10 <= confidence (analyze_tone (Stub.says "polite") Stub.loaded
                              None None Stub.capitalize "Hello there team"))%Q.
Proof.
  split; [vm_compute; reflexivity|].
  apply (confidence_floor (Stub.says "polite") Stub.loaded None None
           Stub.capitalize "Hello there team" eq_refl).
Defined.

Lemma negative_text_is_harsh_witness :
  any_in NEGATIVE_KEYWORDS (lower "There is a Problem with the delivery")
  = true
  /\ any_in POLITE_MARKERS (lower "There is a Problem with the delivery")
     = false
  /\ label (analyze_tone (Stub.says "polite") Stub.loaded
              (Stub.says "polite") Stub.loaded Stub.capitalize
              "There is a Problem with the delivery") = "harsh".
Proof.
  split; [vm_compute; reflexivity|]. split; [vm_compute; reflexivity|].
  apply (negative_text_is_harsh (Stub.says "polite") Stub.loaded
           (Stub.says "polite") Stub.loaded Stub.capitalize
           "There is a Problem with the delivery" eq_refl eq_refl).
Defined.

Lemma polite_rule_and_scorer_witness :
  blank "please send the report" = false
  /\ rv_label (rule_based_tone "please send the report") = "polite"
  /\ fst (scorer_output (Stub.says "firm") Stub.loaded None None
            "please send the report") = Some "firm"
  /\ label (analyze_tone (Stub.says "firm") Stub.loaded None None
              Stub.capitalize "please send the report") = "neutral".
Proof.
  split; [vm_compute; reflexivity|]. split; [vm_compute; reflexivity|]. split; [vm_compute; reflexivity|].
  apply (proj2 (polite_rule_and_scorer (Stub.says "firm") Stub.loaded
                  None None Stub.capitalize "please send the report"
                  eq_refl eq_refl)).
  reflexivity.
Defined.

Lemma label_and_style_tags_agree_witness :
  rv_label (rule_based_tone "send this now") = "firm"
  /\ In "commanding" (rv_style_tags (rule_based_tone "send this now"))
  /\ ~ In "polite" (rv_style_tags (rule_based_tone "send this now")).
Proof.
  split; [vm_compute; reflexivity|].
  apply (proj1 (label_and_style_tags_agree "send this now")). reflexivity.
Defined.

Lemma abrupt_text_scores_at_most_75_witness :
  blank "stuff stuff stuff" = false
  /\ Clarity.abrupt "stuff stuff stuff" = true
  /\ Clarity.clarity_score
       (Clarity.analyze_clarity (Stub.readability 90) "stuff stuff stuff")
     <= 75.
Proof.
  split; [vm_compute; reflexivity|]. split; [vm_compute; reflexivity|].
  apply (abrupt_text_scores_at_most_75 (Stub.readability 90)
           "stuff stuff stuff" eq_refl eq_refl).
Defined.

Lemma no_issue_scores_at_least_95_witness :
  Clarity.issues
    (Clarity.analyze_clarity (Stub.readability 70)
       "Please send the report by Friday so that we can review it together.")
  = []
  /\ 95 <= Clarity.clarity_score
             (Clarity.analyze_clarity (Stub.readability 70)
                "Please send the report by Friday so that we can review it together.").
Proof.
  split; [vm_compute; reflexivity|].
  apply (no_issue_scores_at_least_95 (Stub.readability 70)
           "Please send the report by Friday so that we can review it together."
           eq_refl).
Defined.

Lemma paired_issues_witness :
  blank "The report was finished and things were ended." = false
  /\ (In Issue.passive_advice
         (Clarity.issues
            (Clarity.analyze_clarity (Stub.readability 30)
               "The report was finished and things were ended."))
      <-> any_search Clarity.PASSIVE_PATTERNS
            (lower "The report was finished and things were ended.") = true).
Proof.
  split; [vm_compute; reflexivity|].
  exact (proj1 (proj2 (paired_issues (Stub.readability 30)
           "The report was finished and things were ended." eq_refl))).
Defined.

Lemma vague_issue_count_witness :
  blank "We discussed stuff and various plans for the next quarter today."
  = false
  /\ Issue.times Issue.vague_issue
       (Clarity.issues
          (Clarity.analyze_clarity (Stub.readability 60)
             "We discussed stuff and various plans for the next quarter today."))
     = 2%nat.
Proof.
  split; [vm_compute; reflexivity|].
  rewrite (vague_issue_count (Stub.readability 60)
             "We discussed stuff and various plans for the next quarter today."
             eq_refl).
  reflexivity.
Defined.

Lemma retry_schedule_witness :
  1 <= 5
  /\ Rewrite.r_calls
       (Rewrite.generate_with_retry (StubClient.recovers_at 3 " Done. ")
          "prompt" "system" 5 2 (4 # 10) 300) = 3%nat
  /\ Rewrite.r_sleeps
       (Rewrite.generate_with_retry (StubClient.recovers_at 3 " Done. ")
          "prompt" "system" 5 2 (4 # 10) 300)
     = Rewrite.delays 2
         (Rewrite.r_calls
            (Rewrite.generate_with_retry (StubClient.recovers_at 3 " Done. ")
               "prompt" "system" 5 2 (4 # 10) 300) - 1).
Proof.
  split; [lia|]. split; [vm_compute; reflexivity|].
  apply (retry_schedule (StubClient.recovers_at 3 " Done. ")
           "prompt" "system" 5 2 (4 # 10) 300).
  lia.
Defined.

Lemma retry_run_decided_witness :
  1 <= 5
  /\ Rewrite.failed_transiently (StubClient.recovers_at 3 " Done. ")
       {| Rewrite.rq_model := Rewrite.MODEL_NAME;
          Rewrite.rq_contents := "prompt";
          Rewrite.rq_system_instruction := "system";
          Rewrite.rq_temperature := (4 # 10)%Q;
          Rewrite.rq_max_output_tokens := 300 |} 2.
Proof.
  split; [lia|].
  apply (proj1 (retry_run_decided (StubClient.recovers_at 3 " Done. ")
                  "prompt" "system" 5 2 (4 # 10) 300 ltac:(lia))).
  split; [lia | reflexivity].
Defined.

Lemma always_overloaded (rq : Rewrite.Request) (n : Z) :
  Rewrite.failed_transiently StubClient.overloaded rq n.
Proof. exists "503 UNAVAILABLE". split; reflexivity. Qed.

Lemma retry_exhausted_witness :
  1 <= 5
  /\ Z.of_nat (Rewrite.r_calls
                 (Rewrite.generate_with_retry StubClient.overloaded
                    "prompt" "system" 5 2 (4 # 10) 300)) = 5
  /\ Rewrite.r_sleeps
       (Rewrite.generate_with_retry StubClient.overloaded
          "prompt" "system" 5 2 (4 # 10) 300)
     = Rewrite.delays 2 (Z.to_nat 5 - 1).
Proof.
  split; [lia|].
  pose proof (retry_exhausted StubClient.overloaded "prompt" "system" 5 2
                (4 # 10) 300 ltac:(lia)
                (fun n _ => always_overloaded _ n)) as H.
  split; [apply H | apply (proj2 H)].
Defined.

Lemma rewrite_text_outcome_witness :
  blank "   " = true
  /\ Rewrite.rewrite_text StubClient.overloaded "   " "polite" None
     = ({| Rewrite.rewritten_text := Some EmptyString;
           Rewrite.success := false;
           Rewrite.model := None |}, None).
Proof.
  split; [vm_compute; reflexivity|].
  exact (proj1 (rewrite_text_outcome StubClient.overloaded "   " "polite" None)
               eq_refl).
Defined.

Lemma normalize_tone_total_witness :
  ~ In "furious" enum_labels
  /\ Rewrite.tone_instruction "furious" = "Professional and polite.".
Proof.
  assert (H : ~ In "furious" enum_labels).
  { unfold enum_labels. simpl. intuition discriminate. }
  split; [exact H|].
  exact (proj2 normalize_tone_total "furious" H).
Defined.

Lemma dashboard_counts_witness :
  Forall (fun a => In (App.ea_tone a)
                      [Some "polite"; Some "neutral"; Some "harsh"])
         [StubClient.row (Some "harsh"); StubClient.row (Some "polite")]
  /\ App.polite (App.dashboard
                   [StubClient.row (Some "harsh"); StubClient.row (Some "polite")])
     + App.neutral (App.dashboard
                      [StubClient.row (Some "harsh"); StubClient.row (Some "polite")])
     + App.harsh (App.dashboard
                    [StubClient.row (Some "harsh"); StubClient.row (Some "polite")])
     = App.total (App.dashboard
                    [StubClient.row (Some "harsh"); StubClient.row (Some "polite")]).
Proof.
  assert (H : Forall (fun a => In (App.ea_tone a)
                        [Some "polite"; Some "neutral"; Some "harsh"])
                [StubClient.row (Some "harsh"); StubClient.row (Some "polite")]).
  { constructor; [cbn; auto|]. constructor; [cbn; auto | constructor]. }
  split; [exact H|].
  exact (proj2 (proj2 (proj2 (proj2 (proj2
           (dashboard_counts
              [StubClient.row (Some "harsh"); StubClient.row (Some "polite")])))))
           H).
Defined.

Lemma history_text_length_witness :
  (String.length "Hello" <= 120)%nat
  /\ App.history_text "Hello" = "Hello".
Proof.
  assert (H : (String.length "Hello" <= 120)%nat) by (cbn; lia).
  split; [exact H|].
  exact (proj1 (history_text_length "Hello") H).
Defined.

Lemma rewrite_handler_witness :
  all_space (or_else (App.rb_text
               {| App.rb_text := Some "  ";
                  App.rb_tone := Some "Angry";
                  App.rb_clarity_issues := None |}) EmptyString) = true
  /\ App.rewrite StubClient.overloaded
       {| App.rb_text := Some "  ";
          App.rb_tone := Some "Angry";
          App.rb_clarity_issues := None |} = App.TextRequired.
Proof.
  split; [vm_compute; reflexivity|].
  exact (proj2 (proj1 (rewrite_handler StubClient.overloaded
                         {| App.rb_text := Some "  ";
                            App.rb_tone := Some "Angry";
                            App.rb_clarity_issues := None |}))
               eq_refl).
Defined.


Lemma sentences_are_clean_witness :
  In "How are you" (Clarity.split_sentences "Hi there.  How are you?! Fine")
  /\ strip "How are you" = "How are you".
Proof.
  assert (H : In "How are you"
                (Clarity.split_sentences "Hi there.  How are you?! Fine")).
  { vm_compute. right. left. reflexivity. }
  split; [exact H|].
  exact (proj1 (proj2 (sentences_are_clean
                         "Hi there.  How are you?! Fine" "How are you" H))).
Defined.

Lemma no_word_iff_blank_witness :
  blank "Hello" = false /\ 1 <= Clarity.count_words "Hello".
Proof.
  split; [vm_compute; reflexivity|].
  exact (proj2 (no_word_iff_blank "Hello") eq_refl).
Defined.
